(** * files-filter: the filter-and-copy request of [main.py]

  A shallow embedding of [filter_files] and [filter_and_copy] over a small
  model of the Python runtime they call into: [str] methods, the POSIX
  flavour of [os.path], [datetime.strptime] for the one format the program
  uses, and a file system with [os.walk], [os.makedirs] and [shutil.copy2].

  Modelling boundary.  Strings are byte strings, a text being its UTF-8
  encoding.  Case mapping and white space are Python's on ASCII text; outside
  ASCII, [upper] has the two mappings that show how case folding can fail
  (sharp s and dotless i) and every other byte is left alone, so the
  properties of case are stated for ASCII text.  The file system has
  directories and regular files only (no links, no quota).  Of the
  permissions it has the owner's read and write bits of regular files, which
  is what [shutil.copy2] meets when it opens its source and an existing
  destination: the process owns the files, is not the superuser, runs with
  umask 022, and may search and write every directory.  Paths are resolved
  lexically against the root, which is also the working directory; a path
  through [..] is resolved by a real system only where the directory before
  it exists, so the properties of where a request writes are stated for
  destinations without [..].  [datetime.fromtimestamp] depends on the local
  time zone and is a parameter of the development. *)

From Stdlib Require Import ZArith Ascii String List Lia.
From stdpp Require Import base option list gmap strings pretty.

Local Open Scope Z_scope.

(** ** Python [str] methods *)

Module PyStr.

(** [str.isspace] on the ASCII range: TAB..CR, FS..US and SPACE. *)
Definition is_space (c : ascii) : bool :=
  let n := N_of_ascii c in
  ((9 <=? n) && (n <=? 13) || (28 <=? n) && (n <=? 32))%N.

Definition is_upper (c : ascii) : bool :=
  let n := N_of_ascii c in ((65 <=? n) && (n <=? 90))%N.

Definition is_lower (c : ascii) : bool :=
  let n := N_of_ascii c in ((97 <=? n) && (n <=? 122))%N.

Definition lower_char (c : ascii) : ascii :=
  if is_upper c then ascii_of_N (N_of_ascii c + 32) else c.

Definition upper_char (c : ascii) : ascii :=
  if is_lower c then ascii_of_N (N_of_ascii c - 32) else c.

Fixpoint map_chars (f : ascii → ascii) (s : string) : string :=
  match s with
  | EmptyString => EmptyString
  | String c s' => String (f c) (map_chars f s')
  end.

(** A byte of ASCII text (a byte of the encoding of any other character is
    128 or more). *)
Definition is_ascii (c : ascii) : bool := (N_of_ascii c <? 128)%N.

(** [s.lower()] *)
Definition lower : string → string := map_chars lower_char.

(** [s.upper()].  Sharp s (U+00DF, the bytes 195 159) becomes [SS], and
    dotless i (U+0131, the bytes 196 177) becomes [I]. *)
Fixpoint upper (s : string) : string :=
  match s with
  | EmptyString => EmptyString
  | String c s' =>
      match s' with
      | String c' s'' =>
          if bool_decide (c = "195"%char ∧ c' = "159"%char)
          then String "S" (String "S" (upper s''))
          else if bool_decide (c = "196"%char ∧ c' = "177"%char)
          then String "I" (upper s'')
          else String (upper_char c) (upper s')
      | EmptyString => String (upper_char c) EmptyString
      end
  end.

Definition is_empty (s : string) : bool :=
  match s with EmptyString => true | _ => false end.

(** [s.lstrip(chars)] with the character set given as a predicate *)
Fixpoint lstrip_by (p : ascii → bool) (s : string) : string :=
  match s with
  | EmptyString => EmptyString
  | String c s' => if p c then lstrip_by p s' else s
  end.

(** [s.rstrip(chars)]: a character goes when it is in the set and nothing
    is left of what follows it. *)
Fixpoint rstrip_by (p : ascii → bool) (s : string) : string :=
  match s with
  | EmptyString => EmptyString
  | String c s' =>
      let r := rstrip_by p s' in
      if is_empty r && p c then EmptyString else String c r
  end.

(** [s.strip()] *)
Definition strip (s : string) : string := rstrip_by is_space (lstrip_by is_space s).

(** [s.lstrip(".")] *)
Definition lstrip_dots (s : string) : string :=
  lstrip_by (λ c, bool_decide (c = "."%char)) s.

(** [s.split(sep)] for a separator of one character: the piece before the
    first separator, and the pieces after it. *)
Fixpoint split_go (sep : ascii) (s : string) : string * list string :=
  match s with
  | EmptyString => (EmptyString, [])
  | String c s' =>
      let '(piece, pieces) := split_go sep s' in
      if bool_decide (c = sep) then (EmptyString, piece :: pieces)
      else (String c piece, pieces)
  end.

Definition split (sep : ascii) (s : string) : list string :=
  let '(piece, pieces) := split_go sep s in piece :: pieces.

(** [l[-1]] of a list that [split] returned (never empty) *)
Definition last_piece (l : list string) : string := List.last l EmptyString.

(** [sep.join(l)] *)
Definition join (sep : string) (l : list string) : string := String.concat sep l.

Definition starts_with_char (c : ascii) (s : string) : bool :=
  match s with String c' _ => bool_decide (c' = c) | EmptyString => false end.

Fixpoint ends_with_char (c : ascii) (s : string) : bool :=
  match s with
  | EmptyString => false
  | String c' EmptyString => bool_decide (c' = c)
  | String _ s' => ends_with_char c s'
  end.

Fixpoint contains_char (c : ascii) (s : string) : bool :=
  match s with
  | EmptyString => false
  | String c' s' => bool_decide (c' = c) || contains_char c s'
  end.

Fixpoint all_chars (p : ascii → bool) (s : string) : bool :=
  match s with
  | EmptyString => true
  | String c s' => p c && all_chars p s'
  end.

(** [needle in s] for strings (used to read error details) *)
Fixpoint is_prefix (p s : string) : bool :=
  match p, s with
  | EmptyString, _ => true
  | String a p', String b s' => bool_decide (a = b) && is_prefix p' s'
  | _, _ => false
  end.

Fixpoint contains (needle s : string) : bool :=
  is_prefix needle s ||
  match s with
  | EmptyString => false
  | String _ s' => contains needle s'
  end.

End PyStr.

(** ** [os.path] (the POSIX flavour, [posixpath]) *)

Module OsPath.
Import PyStr.

(** [os.path.join(a, b)]: an absolute [b], or an empty [a], gives [b]. *)
Definition join (a b : string) : string :=
  if starts_with_char "/" b || is_empty a then b
  else if ends_with_char "/" a then a +:+ b
  else a +:+ "/" +:+ b.

(** [os.path.basename(p)]: what follows the last slash. *)
Definition basename (p : string) : string := last_piece (split "/" p).

End OsPath.

(** ** [datetime.datetime] *)

Record datetime := mk_datetime {
year : Z; month : Z; day : Z;
hour : Z; minute : Z; second : Z; microsecond : Z
}.

Module DateTime.

(** Naive datetimes compare as the tuples of their fields. *)
Definition fields (d : datetime) : list Z :=
  [year d; month d; day d; hour d; minute d; second d; microsecond d].

Fixpoint lex_compare (a b : list Z) : comparison :=
  match a, b with
  | [], [] => Eq
  | [], _ :: _ => Lt
  | _ :: _, [] => Gt
  | x :: a', y :: b' =>
      match x ?= y with
      | Eq => lex_compare a' b'
      | c => c
      end
  end.

Definition compare (a b : datetime) : comparison := lex_compare (fields a) (fields b).

(** [a <= b] and [a > b] *)
Definition leb (a b : datetime) : bool :=
  match compare a b with Gt => false | _ => true end.

Definition is_leap (y : Z) : bool :=
  (y mod 4 =? 0) && (negb (y mod 100 =? 0) || (y mod 400 =? 0)).

Definition days_in_month (y m : Z) : Z :=
  if m =? 2 then (if is_leap y then 29 else 28)
  else if (m =? 4) || (m =? 6) || (m =? 9) || (m =? 11) then 30
  else 31.

(** The range checks of the [datetime] constructor ([MINYEAR = 1],
    [MAXYEAR = 9999]); out of range is a [ValueError]. *)
Definition valid (d : datetime) : bool :=
  (1 <=? year d) && (year d <=? 9999) &&
  (1 <=? month d) && (month d <=? 12) &&
  (1 <=? day d) && (day d <=? days_in_month (year d) (month d)) &&
  (0 <=? hour d) && (hour d <=? 23) &&
  (0 <=? minute d) && (minute d <=? 59) &&
  (0 <=? second d) && (second d <=? 59) &&
  (0 <=? microsecond d) && (microsecond d <=? 999999).

(** *** [datetime.strptime(s, "%Y-%m-%d %H:%M:%S")]

    [_strptime] compiles the format to the regular expression
<<
    (?P<Y>\d\d\d\d)-(?P<m>1[0-2]|0[1-9]|[1-9])-
    (?P<d>3[0-1]|[1-2]\d|0[1-9]|[1-9]| [1-9])\s+
    (?P<H>2[0-3]|[0-1]\d|\d):(?P<M>[0-5]\d|\d):(?P<S>6[0-1]|[0-5]\d|\d)
>>
    matches it at the start of the string, refuses unconverted data after
    the match, and builds the datetime.  A matcher returns every way to
    match a prefix, in the order the backtracking engine tries them; the
    match the engine reports is the first of the whole sequence. *)

Definition matcher (A : Type) : Type := string → list (A * string).

Definition digit_val (c : ascii) : Z := Z.of_N (N_of_ascii c) - 48.

Definition in_range (lo hi : ascii) (c : ascii) : bool :=
  ((N_of_ascii lo <=? N_of_ascii c) && (N_of_ascii c <=? N_of_ascii hi))%N.

Definition is_digit : ascii → bool := in_range "0" "9".

Definition one (p : ascii → bool) : matcher Z := λ s,
  match s with
  | String c s' => if p c then [(digit_val c, s')] else []
  | _ => []
  end.

Definition two (p1 p2 : ascii → bool) : matcher Z := λ s,
  match s with
  | String c1 (String c2 s') =>
      if p1 c1 && p2 c2 then [(10 * digit_val c1 + digit_val c2, s')] else []
  | _ => []
  end.

Definition lit (c : ascii) : matcher unit := λ s,
  match s with
  | String c' s' => if bool_decide (c' = c) then [(tt, s')] else []
  | _ => []
  end.

Definition alt {A} (m1 m2 : matcher A) : matcher A := λ s, m1 s ++ m2 s.

Definition seq {A B} (m : matcher A) (k : A → matcher B) : matcher B := λ s,
  flat_map (λ '(a, rest), k a rest) (m s).

Definition ret {A} (a : A) : matcher A := λ s, [(a, s)].

(** [\d\d\d\d] *)
Definition four_digits : matcher Z := λ s,
  match s with
  | String c1 (String c2 (String c3 (String c4 s'))) =>
      if is_digit c1 && is_digit c2 && is_digit c3 && is_digit c4
      then [(1000 * digit_val c1 + 100 * digit_val c2 + 10 * digit_val c3 + digit_val c4, s')]
      else []
  | _ => []
  end.

(** [\s+], greedy: the longest run first, then shorter ones. *)
Fixpoint spaces (s : string) : list (unit * string) :=
  match s with
  | String c s' => if PyStr.is_space c then spaces s' ++ [(tt, s')] else []
  | _ => []
  end.

Definition re_m : matcher Z :=
  alt (two (in_range "1" "1") (in_range "0" "2"))
 (alt (two (in_range "0" "0") (in_range "1" "9"))
      (one (in_range "1" "9"))).

Definition re_d : matcher Z :=
  alt (two (in_range "3" "3") (in_range "0" "1"))
 (alt (two (in_range "1" "2") is_digit)
 (alt (two (in_range "0" "0") (in_range "1" "9"))
 (alt (one (in_range "1" "9"))
      (seq (lit " ") (λ _, one (in_range "1" "9")))))).

Definition re_H : matcher Z :=
  alt (two (in_range "2" "2") (in_range "0" "3"))
 (alt (two (in_range "0" "1") is_digit)
      (one is_digit)).

Definition re_M : matcher Z :=
  alt (two (in_range "0" "5") is_digit) (one is_digit).

Definition re_S : matcher Z :=
  alt (two (in_range "6" "6") (in_range "0" "1"))
 (alt (two (in_range "0" "5") is_digit)
      (one is_digit)).

Definition format_regex : matcher datetime :=
  seq four_digits (λ Y, seq (lit "-") (λ _,
  seq re_m (λ m, seq (lit "-") (λ _,
  seq re_d (λ d, seq spaces (λ _,
  seq re_H (λ H, seq (lit ":") (λ _,
  seq re_M (λ M, seq (lit ":") (λ _,
  seq re_S (λ S, ret (mk_datetime Y m d H M S 0)))))))))))).

(** [None] stands for the [ValueError] of [strptime]. *)
Definition strptime (s : string) : option datetime :=
  match format_regex s with
  | (d, EmptyString) :: _ => if valid d then Some d else None
  | _ => None
  end.

(** *** [datetime.fromtimestamp]

    The conversion of a POSIX time to local time is the platform's; the
    program is verified for any such conversion.  This is the one of a
    machine whose time zone is UTC, for the examples; a time stamp counts
    microseconds since the epoch. *)
Definition utc_fromtimestamp (us : Z) : datetime :=
  let secs := us / 1000000 in
  let sod := secs mod 86400 in
  let z := secs / 86400 + 719468 in
  let era := z / 146097 in
  let doe := z mod 146097 in
  let yoe := (doe - doe / 1460 + doe / 36524 - doe / 146096) / 365 in
  let doy := doe - (365 * yoe + yoe / 4 - yoe / 100) in
  let mp := (5 * doy + 2) / 153 in
  let m := if mp <? 10 then mp + 3 else mp - 9 in
  let y := yoe + era * 400 + (if m <=? 2 then 1 else 0) in
  mk_datetime y m (doy - (153 * mp + 2) / 5 + 1)
              (sod / 3600) (sod mod 3600 / 60) (sod mod 60) (us mod 1000000).

End DateTime.

(** ** Exceptions and the monad of the request handler *)

Inductive os_error :=
| FileNotFoundError | FileExistsError | NotADirectoryError
| IsADirectoryError | PermissionError | SameFileError.

(** What the program raises or meets: FastAPI's [HTTPException], and the
  [OSError] family of [os] and [shutil]. *)
Inductive exn :=
| HTTPException (status_code : Z) (detail : string)
| OSError (kind : os_error) (filename : string).

Definition strerror (k : os_error) : string :=
match k with
| FileNotFoundError => "[Errno 2] No such file or directory"
| FileExistsError => "[Errno 17] File exists"
| NotADirectoryError => "[Errno 20] Not a directory"
| IsADirectoryError => "[Errno 21] Is a directory"
| PermissionError => "[Errno 13] Permission denied"
| SameFileError => "source and destination are the same file"
end.

(** [str(e)].  Starlette's [HTTPException.__str__] gives
  ["{status_code}: {detail}"]; an [OSError] prints its message and the file
  name (the quoting of the name is simplified). *)
Definition exn_str (e : exn) : string :=
match e with
| HTTPException code detail => pretty code +:+ ": " +:+ detail
| OSError k f => strerror k +:+ ": '" +:+ f +:+ "'"
end.

(** [not l] for a list *)
Definition is_empty_list {A} (l : list A) : bool :=
match l with [] => true | _ => false end.

(** ** The file system *)

(** [os.stat_result]: the permission bits and the times. *)
Record stat_result := mk_stat { st_mode : Z; st_mtime : Z; st_ctime : Z }.

(** [stat.S_IRUSR] and [stat.S_IWUSR], the owner's read and write bits. *)
Definition S_IRUSR : Z := 256.
Definition S_IWUSR : Z := 128.

Definition owner_can_read (st : stat_result) : bool :=
negb (Z.land (st_mode st) S_IRUSR =? 0).

Definition owner_can_write (st : stat_result) : bool :=
negb (Z.land (st_mode st) S_IWUSR =? 0).

(** The modes of what the examples hold: [0o755], [0o644] and [0o444]. *)
Definition rwxr_xr_x : Z := 493.
Definition rw_r__r__ : Z := 420.
Definition r__r__r__ : Z := 292.

Inductive node :=
| Dir (st : stat_result)
| File (data : string) (st : stat_result).

(** Nodes by canonical path (the names from the root down), and the clock
  that stamps what gets created. *)
Record filesystem := mk_fs {
entries : gmap (list string) node;
clock : Z
}.

Module FS.
Import PyStr.

Definition is_dir_node (n : node) : bool :=
  match n with Dir _ => true | File _ _ => false end.

(** A directory entry's name: not empty, not [.] or [..], no slash. *)
Definition valid_name (n : string) : bool :=
  negb (is_empty n) && negb (bool_decide (n = ".")) &&
  negb (bool_decide (n = "..")) && negb (contains_char "/" n).

Definition push_component (stack : list string) (c : string) : list string :=
  if is_empty c || bool_decide (c = ".") then stack
  else if bool_decide (c = "..") then removelast stack
  else stack ++ [c].

(** Path resolution, lexical; a relative path starts at the root.  The
    empty path names nothing ([ENOENT]). *)
Definition canon (p : string) : option (list string) :=
  if is_empty p then None
  else Some (fold_left push_component (split "/" p) []).

(** The root directory always exists. *)
Definition node_at (fs : filesystem) (k : list string) : option node :=
  match k with
  | [] => Some (Dir (mk_stat rwxr_xr_x 0 0))
  | _ => entries fs !! k
  end.

Definition resolve (fs : filesystem) (p : string) : option node :=
  canon p ≫= node_at fs.

Definition set_node (k : list string) (n : node) (fs : filesystem) : filesystem :=
  mk_fs (<[k := n]> (entries fs)) (clock fs).

(** [os.path.isdir(p)] *)
Definition isdir (fs : filesystem) (p : string) : bool :=
  match resolve fs p with Some (Dir _) => true | _ => false end.

(** [os.path.getmtime(p)], [os.path.getctime(p)] *)
Definition stat (fs : filesystem) (p : string) : exn + stat_result :=
  match resolve fs p with
  | Some (Dir st) | Some (File _ st) => inr st
  | None => inl (OSError FileNotFoundError p)
  end.

Definition getmtime (fs : filesystem) (p : string) : exn + Z :=
  match stat fs p with inl e => inl e | inr st => inr (st_mtime st) end.

Definition getctime (fs : filesystem) (p : string) : exn + Z :=
  match stat fs p with inl e => inl e | inr st => inr (st_ctime st) end.

(** The name under which [key] is an entry of directory [k], if it is one. *)
Definition child_of (k key : list string) : option string :=
  match last key with
  | Some n => if bool_decide (key = k ++ [n]) && valid_name n then Some n else None
  | None => None
  end.

(** [os.scandir]: the entries of the directory at [k], in the order the
    file system lists them. *)
Definition listdir (fs : filesystem) (k : list string) : list (string * node) :=
  omap (λ '(key, nd), (λ n, (n, nd)) <$> child_of k key) (map_to_list (entries fs)).

Definition scandir (fs : filesystem) (top : string) : option (list (string * node)) :=
  match canon top with
  | Some k =>
      match node_at fs k with
      | Some (Dir _) => Some (listdir fs k)
      | _ => None
      end
  | None => None
  end.

Definition names_where (p : node → bool) (l : list (string * node)) : list string :=
  fst <$> filter (λ e, p e.2 = true) l.

(** [os.walk(top)], top-down, errors of [scandir] ignored ([onerror=None]):
    the triples [(root, dirs, files)].  A walk cannot go deeper than the
    longest path of the file system, which bounds the recursion. *)
Fixpoint walk (depth : nat) (fs : filesystem) (top : string)
  : list (string * list string * list string) :=
  match depth with
  | O => []
  | S depth' =>
      match scandir fs top with
      | None => []
      | Some es =>
          let dirs := names_where is_dir_node es in
          let files := names_where (λ n, negb (is_dir_node n)) es in
          (top, dirs, files)
            :: flat_map (λ d, walk depth' fs (OsPath.join top d)) dirs
      end
  end.

Definition max_depth (fs : filesystem) : nat :=
  S (max_list (length <$> (map_to_list (entries fs)).*1)).

Definition os_walk (fs : filesystem) (top : string)
  : list (string * list string * list string) :=
  walk (max_depth fs) fs top.

End FS.

(** A state and exception monad: an exception keeps the effects made before
  it was raised. *)
Definition M (A : Type) : Type := filesystem → filesystem * (exn + A).

Definition ret {A} (a : A) : M A := λ fs, (fs, inr a).
Definition raise {A} (e : exn) : M A := λ fs, (fs, inl e).
Definition bind {A B} (m : M A) (k : A → M B) : M B := λ fs,
match m fs with
| (fs', inr a) => k a fs'
| (fs', inl e) => (fs', inl e)
end.
(** [try: m  except Exception as e: handler e] *)
Definition try_except {A} (m : M A) (handler : exn → M A) : M A := λ fs,
match m fs with
| (fs', inl e) => handler e fs'
| r => r
end.
(** A computation that only reads the file system. *)
Definition reading {A} (f : filesystem → exn + A) : M A := λ fs, (fs, f fs).

Notation "x <- m ;; k" := (bind m (λ x, k))
(at level 100, m at next level, right associativity, only parsing).
Notation "'do' m ;; k" := (bind m (λ _, k))
(at level 100, m at next level, right associativity, only parsing).

Module Shutil.
Import PyStr FS.

(** [os.mkdir] along the components of a path: [os.makedirs(name,
    exist_ok)].  A missing directory is created, with the mode [0o777] less
    the umask; an existing one is passed through, the last one only with
    [exist_ok]; a regular file in the way is an error. *)
Fixpoint mkdirs (exist_ok : bool) (name : string) (cur comps : list string)
  : M unit := λ fs,
  match comps with
  | [] => (fs, inr tt)
  | c :: rest =>
      let k := cur ++ [c] in
      match node_at fs k with
      | None =>
          mkdirs exist_ok name k rest
                 (set_node k (Dir (mk_stat rwxr_xr_x (clock fs) (clock fs))) fs)
      | Some (Dir _) =>
          if is_empty_list rest && negb exist_ok
          then (fs, inl (OSError FileExistsError name))
          else mkdirs exist_ok name k rest fs
      | Some (File _ _) =>
          (fs, inl (OSError (if is_empty_list rest then FileExistsError
                             else NotADirectoryError) name))
      end
  end.

Definition makedirs (name : string) (exist_ok : bool) : M unit := λ fs,
  match canon name with
  | None => (fs, inl (OSError FileNotFoundError name))
  | Some [] =>
      if exist_ok then (fs, inr tt) else (fs, inl (OSError FileExistsError name))
  | Some comps => mkdirs exist_ok name [] comps fs
  end.

(** [shutil.copystat]: the permission bits and the modification time of
    the source go to the copy, whose change time is that of the copy. *)
Definition copystat (st : stat_result) (now : Z) : stat_result :=
  mk_stat (st_mode st) (st_mtime st) now.

(** [shutil.copy2(src, dst)]: into [dst] when it is a directory; refuses to
    copy a file onto itself; opens [src] for reading, then creates [dst], or
    opens it for writing and truncates it, and writes it; then [copystat]. *)
Definition copy2 (src dst : string) : M unit := λ fs,
  let dst := if isdir fs dst then OsPath.join dst (OsPath.basename src) else dst in
  match canon src, canon dst with
  | None, _ => (fs, inl (OSError FileNotFoundError src))
  | Some ks, okd =>
      match node_at fs ks with
      | None => (fs, inl (OSError FileNotFoundError src))
      | Some n =>
          if bool_decide (okd = Some ks) then (fs, inl (OSError SameFileError src))
          else
            match n, okd with
            | Dir _, _ => (fs, inl (OSError IsADirectoryError src))
            | File data st, okd =>
                if negb (owner_can_read st)
                then (fs, inl (OSError PermissionError src))
                else
                match okd with
                | None => (fs, inl (OSError FileNotFoundError dst))
                | Some kd =>
                    match node_at fs kd, node_at fs (removelast kd) with
                    | Some (Dir _), _ => (fs, inl (OSError IsADirectoryError dst))
                    | Some (File _ std), Some (Dir _) =>
                        if owner_can_write std
                        then (set_node kd (File data (copystat st (clock fs))) fs,
                              inr tt)
                        else (fs, inl (OSError PermissionError dst))
                    | None, Some (Dir _) =>
                        (set_node kd (File data (copystat st (clock fs))) fs, inr tt)
                    | _, Some (File _ _) => (fs, inl (OSError NotADirectoryError dst))
                    | _, None => (fs, inl (OSError FileNotFoundError dst))
                    end
                end
            end
      end
  end.

End Shutil.

(** ** The program: [main.py] *)

(** The form fields of [POST /filter-and-copy] (the fields of
  [FilterRequest]). *)
Record FilterRequest := mk_request {
source_folder : string;
from_timestamp : string;
to_timestamp : string;
file_formats : string;
use_created_time : bool;
dest_folder_base : string;
dest_folder_name : string
}.

(** The JSON body of a successful response. *)
Record Response := mk_response {
status : string;
count : Z;
destination_folder : string;
copied_files : list string;
skipped_files : Z
}.

(** A loop whose body may raise: the exception ends the loop. *)
Fixpoint for_each {A S : Type} (body : S → A → exn + S) (l : list A) (s : S)
: exn + S :=
match l with
| [] => inr s
| a :: l' =>
    match body s a with
    | inl e => inl e
    | inr s' => for_each body l' s'
    end
end.

Definition invalid_timestamp : exn :=
HTTPException 400 "Invalid timestamp format. Use 'YYYY-MM-DD HH:MM:SS'".

Definition no_valid_formats : exn :=
HTTPException 400 "No valid file formats provided".

Section Program.

(** [datetime.datetime.fromtimestamp], in the local time zone. *)
Variable fromtimestamp : Z → datetime.

(** [[fmt.strip().lower().lstrip(".") for fmt in file_formats.split(",")
    if fmt.strip()]] *)
Definition normalize_formats (file_formats : string) : list string :=
  (λ fmt, PyStr.lstrip_dots (PyStr.lower (PyStr.strip fmt)))
    <$> filter (λ fmt, PyStr.strip fmt ≠ "") (PyStr.split "," file_formats).

(** [filename.split(".")[-1].lower()] *)
Definition extension (filename : string) : string :=
  PyStr.lower (PyStr.last_piece (PyStr.split "." filename)).

(** The body of the inner loop of [filter_files], for one [filename] of the
    directory [root]. *)
Definition visit_file (fs : filesystem) (from_dt to_dt : datetime)
    (file_formats : list string) (use_created_time : bool) (root : string)
    (matching_files : list string) (filename : string) : exn + list string :=
  let ext := extension filename in
  if bool_decide (ext ∈ file_formats) then
    let file_path := OsPath.join root filename in
    match (if use_created_time then FS.getctime fs file_path
           else FS.getmtime fs file_path) with
    | inl e => inl e
    | inr timestamp =>
        let file_time := fromtimestamp timestamp in
        if DateTime.leb from_dt file_time && DateTime.leb file_time to_dt
        then inr (matching_files ++ [file_path])
        else inr matching_files
    end
  else inr matching_files.

Definition filter_files (fs : filesystem)
    (folder_path from_timestamp to_timestamp file_formats : string)
    (use_created_time : bool) : exn + list string :=
  match DateTime.strptime from_timestamp, DateTime.strptime to_timestamp with
  | Some from_dt, Some to_dt =>
      let file_formats := normalize_formats file_formats in
      if is_empty_list file_formats then inl no_valid_formats
      else
        for_each
          (λ matching_files '(root, _, files),
             for_each (visit_file fs from_dt to_dt file_formats
                                  use_created_time root)
                      files matching_files)
          (FS.os_walk fs folder_path) []
  | _, _ => inl invalid_timestamp
  end.

(** The copy loop of [filter_and_copy]: a failure of one file is caught and
    the loop goes on. *)
Fixpoint copy_loop (dest_folder : string) (matching_files copied_files : list string)
  : M (list string) :=
  match matching_files with
  | [] => ret copied_files
  | src :: rest =>
      copied_files <-
        try_except
          (let filename := OsPath.basename src in
           let dest_path := OsPath.join dest_folder filename in
           do Shutil.copy2 src dest_path ;;
           ret (copied_files ++ [dest_path]))
          (λ _, ret copied_files) ;;
      copy_loop dest_folder rest copied_files
  end.

Definition filter_and_copy (req : FilterRequest) : M Response :=
  src_ok <- reading (λ fs, inr (FS.isdir fs (source_folder req))) ;;
  if negb src_ok then
    raise (HTTPException 400
      ("Source folder does not exist or is not a directory: "
         +:+ source_folder req))
  else
  base_ok <- reading (λ fs, inr (FS.isdir fs (dest_folder_base req))) ;;
  if negb base_ok then
    raise (HTTPException 400
      ("Destination base folder does not exist: " +:+ dest_folder_base req))
  else
  let dest_folder := OsPath.join (dest_folder_base req) (dest_folder_name req) in
  do Shutil.makedirs dest_folder true ;;
  matching_files <-
    try_except
      (reading (λ fs, filter_files fs (source_folder req) (from_timestamp req)
                        (to_timestamp req) (file_formats req)
                        (use_created_time req)))
      (λ e, raise (HTTPException 400 (exn_str e))) ;;
  copied_files <- copy_loop dest_folder matching_files [] ;;
  ret {| status := "success";
         count := Z.of_nat (length copied_files);
         destination_folder := dest_folder;
         copied_files := copied_files;
         skipped_files :=
           Z.of_nat (length matching_files) - Z.of_nat (length copied_files) |}.

End Program.

(** ** What the filter is specified over *)

Section Observations.
Import FS.

Variable fromtimestamp : Z → datetime.

(** The files enumerated under a folder, each with the directory the walk
    found it in, in the order of the walk. *)
Definition walk_files (fs : filesystem) (top : string) : list (string * string) :=
  os_walk fs top ≫= λ '(root, _, files), pair root <$> files.

(** The time of a file as the program reads it. *)
Definition file_time (fs : filesystem) (use_created_time : bool) (path : string)
  : exn + datetime :=
  match (if use_created_time then getctime fs path else getmtime fs path) with
  | inl e => inl e
  | inr timestamp => inr (fromtimestamp timestamp)
  end.

(** [from_dt <= t <= to_dt] *)
Definition in_window (from_dt to_dt t : datetime) : bool :=
  DateTime.leb from_dt t && DateTime.leb t to_dt.

(** The test a file passes to be matched. *)
Definition selected (fs : filesystem) (from_dt to_dt : datetime)
    (formats : list string) (use_created_time : bool) (e : string * string) : bool :=
  bool_decide (extension e.2 ∈ formats) &&
  match file_time fs use_created_time (OsPath.join e.1 e.2) with
  | inr t => in_window from_dt to_dt t
  | inl _ => false
  end.

Definition path_of (e : string * string) : string := OsPath.join e.1 e.2.

Definition regular_under (fs : filesystem) (root : string) (files : list string) : Prop :=
  ∀ f, f ∈ files → ∃ data st, resolve fs (OsPath.join root f) = Some (File data st).

(** The path a matched file is copied to. *)
Definition dest_path_of (dest_folder src : string) : string :=
  OsPath.join dest_folder (OsPath.basename src).

(** How each attempt of the copy loop ends, in the order of the loop, each
    attempt starting in the state the one before left: [true] for a file
    copied, [false] for a failure. *)
Fixpoint copy_outcomes (dest_folder : string) (matching_files : list string)
    (fs : filesystem) : list bool :=
  match matching_files with
  | [] => []
  | src :: rest =>
      match Shutil.copy2 src (dest_path_of dest_folder src) fs with
      | (fs', inr _) => true :: copy_outcomes dest_folder rest fs'
      | (fs', inl _) => false :: copy_outcomes dest_folder rest fs'
      end
  end.

(** The destination paths of the attempts that succeeded. *)
Definition copied_paths (dest_folder : string) (attempts : list (string * bool))
  : list string :=
  omap (λ '(src, ok), if ok : bool then Some (dest_path_of dest_folder src) else None)
       attempts.

(** The destination paths the loop collects from state [fs]. *)
Definition copied_in (dest_folder : string) (matching_files : list string)
    (fs : filesystem) : list string :=
  copied_paths dest_folder
    (zip matching_files (copy_outcomes dest_folder matching_files fs)).

(** The state the attempts of the loop lead to. *)
Fixpoint copy_final_state (dest_folder : string) (matching_files : list string)
    (fs : filesystem) : filesystem :=
  match matching_files with
  | [] => fs
  | src :: rest =>
      copy_final_state dest_folder rest
        (Shutil.copy2 src (dest_path_of dest_folder src) fs).1
  end.

(** The path [copy2] writes to. *)
Definition target (fs : filesystem) (src dst : string) : string :=
  if isdir fs dst then OsPath.join dst (OsPath.basename src) else dst.

Definition is_dir_at (fs : filesystem) (k : list string) : bool :=
  match node_at fs k with Some (Dir _) => true | _ => false end.

Definition is_file_at (fs : filesystem) (k : list string) : bool :=
  match node_at fs k with Some (File _ _) => true | _ => false end.

(** The regular files of a file system are those of another. *)
Definition same_files (fs fs' : filesystem) : Prop :=
  ∀ k data st, node_at fs' k = Some (File data st) ↔ node_at fs k = Some (File data st).

(** From [fs] to [fs'] no node changed kind or went away, and no directory
    appeared: what copying files does to a file system. *)
Definition only_files_written (fs fs' : filesystem) : Prop :=
  ∀ k, is_dir_at fs' k = is_dir_at fs k ∧
       (is_file_at fs k = true → is_file_at fs' k = true).

(** From [fs] to [fs'] nothing changed but for directories that appeared
    where there was nothing: what making directories does. *)
Definition only_dirs_added (fs fs' : filesystem) : Prop :=
  ∀ k, node_at fs' k = node_at fs k ∨
       (node_at fs k = None ∧ is_dir_at fs' k = true).

(** A regular file that its owner can read. *)
Definition readable_file_at (fs : filesystem) (k : list string) : bool :=
  match node_at fs k with Some (File _ st) => owner_can_read st | _ => false end.

Definition writable (n : node) : bool :=
  match n with File _ st => owner_can_write st | Dir _ => true end.

(** No regular file is read-only: the owner can write every one. *)
Definition writable_files (fs : filesystem) : Prop :=
  map_Forall (λ _ n, writable n = true) (entries fs).

End Observations.

(** ** An example file system *)

Module Example1.

(** 2024-01-01 10:00:00 UTC, in microseconds *)
Definition t_10h : Z := 1704103200000000.

Definition fs0 : filesystem :=
  mk_fs (list_to_map
           [ (["data"], Dir (mk_stat rwxr_xr_x 0 0));
             (["data"; "a.txt"], File "alpha" (mk_stat rw_r__r__ t_10h t_10h));
             (["data"; "b.log"], File "beta" (mk_stat rw_r__r__ t_10h t_10h));
             (["data"; "sub"], Dir (mk_stat rwxr_xr_x 0 0));
             (["data"; "sub"; "a.txt"], File "gamma" (mk_stat rw_r__r__ t_10h t_10h));
             (["data"; "sub"; "txt"], File "delta" (mk_stat rw_r__r__ t_10h t_10h));
             (["out"], Dir (mk_stat rwxr_xr_x 0 0)) ])
        1720000000000000.

(** The scenario of two files, [a.txt] and [b.log], both modified at ten. *)
Definition fs_two_files : filesystem :=
  mk_fs (list_to_map
           [ (["data"], Dir (mk_stat rwxr_xr_x 0 0));
             (["data"; "a.txt"], File "alpha" (mk_stat rw_r__r__ t_10h t_10h));
             (["data"; "b.log"], File "beta" (mk_stat rw_r__r__ t_10h t_10h));
             (["out"], Dir (mk_stat rwxr_xr_x 0 0)) ])
        1720000000000000.

Definition req0 : FilterRequest :=
  mk_request "/data" "2024-01-01 00:00:00" "2024-01-01 23:59:59" "txt" false
             "/out" "run1".

Definition utc : Z → datetime := DateTime.utc_fromtimestamp.

Definition midnight : datetime := mk_datetime 2024 1 1 0 0 0 0.
Definition end_of_day : datetime := mk_datetime 2024 1 1 23 59 59 0.

(** A request whose from time stamp is malformed. *)
Definition bad_timestamp_request : FilterRequest :=
  mk_request "/data" "2024/01/01" "2024-01-01 23:59:59" "txt" false "/out" "run1".

(** A request whose format list is blank. *)
Definition blank_formats_request : FilterRequest :=
  mk_request "/data" "2024-01-01 00:00:00" "2024-01-01 23:59:59" " , " false
             "/out" "run1".

(** A request whose format list is a token of dots. *)
Definition dots_request : FilterRequest :=
  mk_request "/data" "2024-01-01 00:00:00" "2024-01-01 23:59:59" "..." false
             "/out" "run1".

(** The example file system once [/out/run1] is made. *)
Definition fs_made : filesystem :=
  (Shutil.makedirs "/out/run1" true fs0).1.


(** The matched files of the example request. *)
Definition matching0 : list string :=
  ["/data/a.txt"; "/data/sub/txt"; "/data/sub/a.txt"].

(** A source file that is read-only. *)
Definition fs_read_only : filesystem :=
  mk_fs (list_to_map
           [ (["data"], Dir (mk_stat rwxr_xr_x 0 0));
             (["data"; "a.txt"], File "alpha" (mk_stat r__r__r__ t_10h t_10h));
             (["out"], Dir (mk_stat rwxr_xr_x 0 0)) ])
        1720000000000000.

(** Sharp s, in UTF-8. *)
Definition eszett : string := String "195" (String "159" "").

(** A file whose extension is a sharp s. *)
Definition fs_eszett : filesystem :=
  mk_fs (list_to_map
           [ (["data"], Dir (mk_stat rwxr_xr_x 0 0));
             (["data"; "x." +:+ eszett], File "alpha" (mk_stat rw_r__r__ t_10h t_10h));
             (["data"; "x.SS"], File "beta" (mk_stat rw_r__r__ t_10h t_10h));
             (["out"], Dir (mk_stat rwxr_xr_x 0 0)) ])
        1720000000000000.

End Example1.

(** ** The form page: [get_form] *)



(** ** What the further properties are stated over *)

Section MoreObservations.
Import FS.


(** The files of a list of triples of a walk, each with its directory. *)
Definition files_of (triples : list (string * list string * list string))
  : list (string * string) :=
  triples ≫= λ '(root, _, files), pair root <$> files.

(** Where in the file system a file of the walk is. *)
Definition file_key (e : string * string) : option (list string) :=
  canon (OsPath.join e.1 e.2).

(** Nothing that was there has gone or changed kind. *)
Definition nothing_removed (fs fs' : filesystem) : Prop :=
  ∀ k, (is_dir_at fs k = true → is_dir_at fs' k = true) ∧
       (is_file_at fs k = true → is_file_at fs' k = true).

(** The two places are apart: neither is above the other. *)
Definition apart (k1 k2 : list string) : Prop :=
  ¬ k1 `prefix_of` k2 ∧ ¬ k2 `prefix_of` k1.

(** The path is written without [..]. *)
Definition no_parent_refs (p : string) : Prop := ".." ∉ PyStr.split "/" p.

(** The path of a file as the walk builds it: written without [..], and
    ending in the name of a directory entry. *)
Definition plain_path (p : string) : Prop :=
  no_parent_refs p ∧ valid_name (OsPath.basename p) = true.

End MoreObservations.

(** ** More example inputs *)

Module Example2.
Import Example1.

(** A tree three directories deep, with a file whose name is in upper
    case, a hidden file and an archive. *)
Definition fs_deep : filesystem :=
  mk_fs (list_to_map
           [ (["data"], Dir (mk_stat rwxr_xr_x 0 0));
             (["data"; "y2024"], Dir (mk_stat rwxr_xr_x 0 0));
             (["data"; "y2024"; "jan"], Dir (mk_stat rwxr_xr_x 0 0));
             (["data"; "y2024"; "jan"; "REPORT.TXT"],
                File "report" (mk_stat rw_r__r__ t_10h t_10h));
             (["data"; ".profile"], File "hidden" (mk_stat rw_r__r__ t_10h t_10h));
             (["data"; "backup.tar.gz"], File "archive" (mk_stat rw_r__r__ t_10h t_10h));
             (["out"], Dir (mk_stat rwxr_xr_x 0 0));
             (["out"; "taken"], File "in the way" (mk_stat rw_r__r__ 0 0));
             (["static"], Dir (mk_stat rwxr_xr_x 0 0));
             (["static"; "index.html"], File "<form>" (mk_stat rw_r__r__ 0 0)) ])
        1720000000000000.

(** The destination is an existing regular file. *)
Definition req_taken : FilterRequest :=
  mk_request "/data" "2024-01-01 00:00:00" "2024-01-01 23:59:59" "txt" false
             "/out" "taken".

(** The source folder is missing. *)
Definition req_no_source : FilterRequest :=
  mk_request "/nowhere" "2024/01/01" "2024-01-01 23:59:59" "" false
             "/out" "run1".

(** The destination base is missing. *)
Definition req_no_base : FilterRequest :=
  mk_request "/data" "2024-01-01 00:00:00" "2024-01-01 23:59:59" "txt" false
             "/nowhere" "run1".

(** The destination name is an absolute path. *)
Definition req_absolute : FilterRequest :=
  mk_request "/data" "2024-01-01 00:00:00" "2024-01-01 23:59:59" "txt" false
             "/out" "/data/y2024".

(** No file is of the format asked for. *)
Definition req_no_match : FilterRequest :=
  mk_request "/data" "2024-01-01 00:00:00" "2024-01-01 23:59:59" "pdf" false
             "/out" "run1".


End Example2.

(** * Examples of the runtime model *)

Example split_empty : PyStr.split "," "" = [""].
Proof. reflexivity. Qed.

Example split_formats : PyStr.split "," "txt, .LOG,,py " = ["txt"; " .LOG"; ""; "py "].
Proof. reflexivity. Qed.

Example strip_lower_lstrip :
PyStr.lstrip_dots (PyStr.lower (PyStr.strip " ..LoG  ")) = "log".
Proof. reflexivity. Qed.

Example join_plain : OsPath.join "/out" "run1" = "/out/run1".
Proof. reflexivity. Qed.

Example join_trailing_slash : OsPath.join "/out/" "run1" = "/out/run1".
Proof. reflexivity. Qed.

Example join_absolute : OsPath.join "/out" "/tmp/x" = "/tmp/x".
Proof. reflexivity. Qed.

Example basename_nested : OsPath.basename "/data/sub/a.txt" = "a.txt".
Proof. reflexivity. Qed.

Example strptime_ok :
DateTime.strptime "2024-01-01 10:00:00" = Some (mk_datetime 2024 1 1 10 0 0 0).
Proof. reflexivity. Qed.

Example strptime_short_fields :
DateTime.strptime "2024-1-5  3:4:5" = Some (mk_datetime 2024 1 5 3 4 5 0).
Proof. reflexivity. Qed.

Example strptime_slashes : DateTime.strptime "2024/01/01" = None.
Proof. reflexivity. Qed.

Example strptime_date_only : DateTime.strptime "2024-01-01" = None.
Proof. reflexivity. Qed.

Example strptime_feb_30 : DateTime.strptime "2023-02-30 00:00:00" = None.
Proof. reflexivity. Qed.

Example strptime_leap_second : DateTime.strptime "2024-01-01 10:00:60" = None.
Proof. reflexivity. Qed.

Example strptime_trailing : DateTime.strptime "2024-01-01 10:00:00Z" = None.
Proof. reflexivity. Qed.

Example utc_2024 :
DateTime.utc_fromtimestamp 1704103200000000 = mk_datetime 2024 1 1 10 0 0 0.
Proof. reflexivity. Qed.

(** The scenario of the two files: only [a.txt] is copied. *)
Example two_files_scenario :
  (filter_and_copy DateTime.utc_fromtimestamp Example1.req0 Example1.fs_two_files).2
    = inr (mk_response "success" 1 "/out/run1" ["/out/run1/a.txt"] 0).
Proof. vm_compute. reflexivity. Qed.

Example walk_is_recursive :
  FS.os_walk Example1.fs0 "/data" =
    [("/data", ["sub"], ["a.txt"; "b.log"]); ("/data/sub", [], ["txt"; "a.txt"])].
Proof. vm_compute. reflexivity. Qed.

(** * Facts about the runtime model *)

(** ** Strings *)

Module PyStrFacts.
Import PyStr.

Lemma app_String c s t : String c s +:+ t = String c (s +:+ t).
Proof. reflexivity. Qed.

Lemma app_empty_l s : "" +:+ s = s.
Proof. reflexivity. Qed.

Lemma app_empty_r s : s +:+ "" = s.
Proof. induction s as [|c s IH]; [done|]. by rewrite app_String, IH. Qed.

Lemma app_assoc s t u : (s +:+ t) +:+ u = s +:+ (t +:+ u).
Proof. induction s as [|c s IH]; [done|]. by rewrite !app_String, IH. Qed.

Lemma is_empty_true s : is_empty s = true ↔ s = "".
Proof. by destruct s. Qed.

Lemma is_empty_false s : is_empty s = false ↔ s ≠ "".
Proof. by destruct s. Qed.

(** *** [split] *)

Lemma split_go_app sep a b :
  split_go sep (a +:+ String sep b) =
    ((split_go sep a).1, (split_go sep a).2 ++ split sep b).
Proof.
  induction a as [|c a IH].
  - rewrite app_empty_l. unfold split. simpl.
    destruct (split_go sep b) as [p ps]. by rewrite bool_decide_eq_true_2.
  - rewrite app_String. simpl. rewrite IH.
    destruct (split_go sep a) as [p ps]. simpl.
    by destruct (bool_decide (c = sep)).
Qed.

Lemma split_app sep a b :
  split sep (a +:+ String sep b) = split sep a ++ split sep b.
Proof.
  unfold split at 1 2. rewrite split_go_app.
  by destruct (split_go sep a) as [p ps].
Qed.

Lemma split_no_sep sep s : contains_char sep s = false → split sep s = [s].
Proof.
  unfold split. induction s as [|c s IH]; [done|]. simpl.
  intros [Hc Hs]%orb_false_iff. rewrite Hc.
  specialize (IH Hs). destruct (split_go sep s) as [p ps]. by simplify_eq.
Qed.

Lemma split_pieces_no_sep sep s :
  Forall (λ p, contains_char sep p = false) (split sep s).
Proof.
  unfold split. induction s as [|c s IH]; simpl.
  - by repeat constructor.
  - destruct (split_go sep s) as [p ps].
    destruct (bool_decide (c = sep)) eqn:Hc.
    + by constructor.
    + inversion IH; subst. constructor; [|done]. simpl. by rewrite Hc.
Qed.

Lemma split_nonempty sep s : split sep s ≠ [].
Proof. unfold split. by destruct (split_go sep s). Qed.

Lemma last_piece_snoc l s : last_piece (l ++ [s]) = s.
Proof. unfold last_piece. apply List.last_last. Qed.

Lemma last_piece_app l1 l2 : l2 ≠ [] → last_piece (l1 ++ l2) = last_piece l2.
Proof.
  intros Hl2. destruct (exists_last Hl2) as (l & s & ->).
  by rewrite (assoc_L (++)), !last_piece_snoc.
Qed.

Lemma split_join sep (ts : list string) :
  ts ≠ [] →
  Forall (λ t, contains_char sep t = false) ts →
  split sep (join (String sep "") ts) = ts.
Proof.
  intros Hne Hts. induction Hts as [|t ts Ht Hts IH]; [done|].
  destruct ts as [|t' ts].
  - simpl. by apply split_no_sep.
  - change (join (String sep "") (t :: t' :: ts))
      with (t +:+ String sep (join (String sep "") (t' :: ts))).
    rewrite split_app, IH by done. by rewrite split_no_sep.
Qed.

(** *** Case *)

Lemma lower_upper_char c : lower_char (upper_char c) = lower_char c.
Proof. by destruct c as [[] [] [] [] [] [] [] []]. Qed.

Lemma is_space_upper_char c : is_space (upper_char c) = is_space c.
Proof. by destruct c as [[] [] [] [] [] [] [] []]. Qed.

Lemma lower_lower_char c : lower_char (lower_char c) = lower_char c.
Proof. by destruct c as [[] [] [] [] [] [] [] []]. Qed.

Lemma is_ascii_not_special c c' :
  is_ascii c = true →
  bool_decide (c = "195"%char ∧ c' = "159"%char) = false ∧
  bool_decide (c = "196"%char ∧ c' = "177"%char) = false.
Proof.
  intros Hc. split; apply bool_decide_eq_false_2; intros [-> _]; discriminate Hc.
Qed.

(** On ASCII text [upper] maps character by character. *)
Lemma upper_ascii s : all_chars is_ascii s = true → upper s = map_chars upper_char s.
Proof.
  induction s as [|c s IH]; [done|]. intros [Hc Hs]%andb_true_iff.
  cbn [upper map_chars]. destruct s as [|c' s']; [done|].
  destruct (is_ascii_not_special c c' Hc) as [-> ->]. by rewrite IH.
Qed.

Lemma lower_upper s : lower (map_chars upper_char s) = lower s.
Proof.
  induction s as [|c s IH]; [done|].
  unfold lower in *. simpl. by rewrite lower_upper_char, IH.
Qed.

Lemma lower_lower s : lower (lower s) = lower s.
Proof.
  induction s as [|c s IH]; [done|].
  unfold lower in *. simpl. by rewrite lower_lower_char, IH.
Qed.

Lemma map_chars_app f s t : map_chars f (s +:+ t) = map_chars f s +:+ map_chars f t.
Proof. induction s as [|c s IH]; [done|]. rewrite app_String. simpl. by rewrite IH. Qed.

Lemma is_empty_map_chars f s : is_empty (map_chars f s) = is_empty s.
Proof. by destruct s. Qed.

Lemma contains_char_upper c s :
  upper_char c = c → (∀ c', upper_char c' = c → c' = c) →
  contains_char c (map_chars upper_char s) = contains_char c s.
Proof.
  intros Hc Hinj. induction s as [|c' s IH]; [done|].
  simpl. rewrite IH. f_equal.
  apply bool_decide_ext. split; [by apply Hinj|by intros ->].
Qed.

(** *** [strip] *)

Lemma lstrip_upper s :
  lstrip_by is_space (map_chars upper_char s) =
    map_chars upper_char (lstrip_by is_space s).
Proof.
  induction s as [|c s IH]; [done|].
  simpl. rewrite is_space_upper_char.
  by destruct (is_space c).
Qed.

Lemma rstrip_upper s :
  rstrip_by is_space (map_chars upper_char s) =
    map_chars upper_char (rstrip_by is_space s).
Proof.
  induction s as [|c s IH]; [done|].
  simpl. rewrite IH, is_empty_map_chars, is_space_upper_char.
  by destruct (is_empty _ && is_space c).
Qed.

Lemma strip_upper s :
  strip (map_chars upper_char s) = map_chars upper_char (strip s).
Proof. unfold strip. by rewrite lstrip_upper, rstrip_upper. Qed.

Lemma lstrip_spaces_app ws s :
  all_chars is_space ws = true →
  lstrip_by is_space (ws +:+ s) = lstrip_by is_space s.
Proof.
  induction ws as [|c ws IH]; [done|].
  intros [Hc Hws]%andb_true_iff. rewrite app_String.
  cbn [lstrip_by]. rewrite Hc. auto.
Qed.

Lemma rstrip_nonempty p c s :
  p c = false → rstrip_by p (String c s) = String c (rstrip_by p s).
Proof. intros Hc. simpl. by rewrite Hc, andb_false_r. Qed.

Lemma rstrip_cons_nonempty p c s :
  rstrip_by p s ≠ "" → rstrip_by p (String c s) = String c (rstrip_by p s).
Proof. intros Hs. simpl. by destruct (rstrip_by p s). Qed.

End PyStrFacts.

(** ** Paths *)

Module PathFacts.
Import PyStr PyStrFacts FS.

Lemma ends_with_char_inv c s :
  ends_with_char c s = true → ∃ s', s = s' +:+ String c "".
Proof.
  induction s as [|c' s IH]; [done|]. destruct s as [|c'' s].
  - simpl. intros ->%bool_decide_eq_true. by exists "".
  - intros H. destruct (IH H) as [s' Hs']. exists (String c' s').
    by rewrite app_String, <- Hs'.
Qed.

Lemma valid_name_inv n :
  valid_name n = true →
  n ≠ "" ∧ n ≠ "." ∧ n ≠ ".." ∧ contains_char "/" n = false.
Proof.
  unfold valid_name. rewrite !andb_true_iff, !negb_true_iff.
  rewrite !bool_decide_eq_false, is_empty_false. tauto.
Qed.

Lemma push_component_valid stack n :
  valid_name n = true → push_component stack n = stack ++ [n].
Proof.
  intros (Hne & Hdot & Hdots & _)%valid_name_inv. unfold push_component.
  apply is_empty_false in Hne. rewrite Hne.
  by rewrite !bool_decide_eq_false_2.
Qed.

Lemma starts_with_slash_contains n :
  contains_char "/" n = false → starts_with_char "/" n = false.
Proof. destruct n; [done|]. simpl. by intros [? _]%orb_false_iff. Qed.

Lemma is_empty_app s t : is_empty (s +:+ t) = is_empty s && is_empty t.
Proof. by destruct s. Qed.

(** Joining a directory and the name of one of its entries, as the split
    of the result sees it. *)
Lemma split_join_name root n :
  valid_name n = true → root ≠ "" →
  ∃ l, split "/" (OsPath.join root n) = l ++ [n] ∧
       fold_left push_component (split "/" root) [] = fold_left push_component l [].
Proof.
  intros Hn Hroot. pose proof Hn as (Hne & _ & _ & Hslash)%valid_name_inv.
  unfold OsPath.join. rewrite (starts_with_slash_contains n) by done.
  apply is_empty_false in Hroot. rewrite Hroot. simpl.
  destruct (ends_with_char "/" root) eqn:Hend.
  - apply ends_with_char_inv in Hend as [r ->].
    exists (split "/" r). rewrite app_assoc. change ("/" +:+ n) with (String "/" n).
    rewrite !split_app, (split_no_sep _ n) by done. split; [done|].
    by rewrite fold_left_app.
  - exists (split "/" root). change ("/" +:+ n) with (String "/" n).
    by rewrite split_app, (split_no_sep _ n).
Qed.

Lemma canon_join root n k :
  valid_name n = true → canon root = Some k →
  canon (OsPath.join root n) = Some (k ++ [n]).
Proof.
  intros Hn. unfold canon. destruct (is_empty root) eqn:Hroot; [done|].
  intros [= <-]. apply is_empty_false in Hroot.
  destruct (split_join_name root n Hn Hroot) as (l & Hl & Hfold).
  assert (is_empty (OsPath.join root n) = false) as ->.
  { destruct (OsPath.join root n) eqn:Hj; [|done].
    destruct l as [|? [|]]; simplify_eq/=.
    by injection Hl as <-. }
  rewrite Hl, fold_left_app, Hfold. simpl. by rewrite push_component_valid.
Qed.

Lemma basename_join root n :
  valid_name n = true → OsPath.basename (OsPath.join root n) = n.
Proof.
  intros Hn. unfold OsPath.basename. destruct (decide (root = "")) as [->|Hroot].
  - pose proof Hn as (_ & _ & _ & Hslash)%valid_name_inv.
    unfold OsPath.join. rewrite orb_true_r. by rewrite split_no_sep.
  - destruct (split_join_name root n Hn Hroot) as (l & -> & _).
    apply last_piece_snoc.
Qed.

Lemma removelast_snoc {A} (l : list A) x : removelast (l ++ [x]) = l.
Proof. apply removelast_last. Qed.

Lemma push_component_valid_names stack c :
  Forall (λ n, valid_name n = true) stack →
  contains_char "/" c = false →
  Forall (λ n, valid_name n = true) (push_component stack c).
Proof.
  intros Hst Hc. unfold push_component.
  destruct (is_empty c) eqn:He; simpl; [done|].
  destruct (bool_decide (c = ".")) eqn:Hd; simpl; [done|].
  destruct (bool_decide (c = "..")) eqn:Hdd.
  - destruct stack as [|x stack _] using rev_ind; [done|].
    rewrite removelast_snoc. by apply Forall_app in Hst as [? _].
  - apply Forall_app. split; [done|]. constructor; [|done].
    unfold valid_name. by rewrite He, Hd, Hdd, Hc.
Qed.

(** Canonical paths are made of valid names. *)
Lemma canon_valid_names p k :
  canon p = Some k → Forall (λ n, valid_name n = true) k.
Proof.
  unfold canon. destruct (is_empty p); [done|]. intros [= <-].
  pose proof (split_pieces_no_sep "/" p) as Hp.
  assert (∀ l stack, Forall (λ c, contains_char "/" c = false) l →
            Forall (λ n, valid_name n = true) stack →
            Forall (λ n, valid_name n = true) (fold_left push_component l stack))
    as Hfold.
  { induction l as [|c l IH]; intros stack Hl Hst; [done|].
    inversion Hl; subst. simpl. apply IH; [done|].
    by apply push_component_valid_names. }
  by apply Hfold.
Qed.

End PathFacts.

(** ** The file system *)

Module FSFacts.
Import PyStr FS PathFacts.

Lemma child_of_Some k key n :
  child_of k key = Some n ↔ key = k ++ [n] ∧ valid_name n = true.
Proof.
  unfold child_of. split.
  - destruct (last key) as [n'|] eqn:Hlast; [|done].
    destruct (bool_decide (key = k ++ [n'])) eqn:Hkey; [|done].
    destruct (valid_name n') eqn:Hv; [|done].
    intros [= <-]. by apply bool_decide_eq_true in Hkey.
  - intros [-> Hv]. rewrite last_snoc, bool_decide_eq_true_2 by done.
    by rewrite Hv.
Qed.

Lemma elem_of_listdir fs k n nd :
  (n, nd) ∈ listdir fs k ↔
    valid_name n = true ∧ entries fs !! (k ++ [n]) = Some nd.
Proof.
  unfold listdir. rewrite list_elem_of_omap. split.
  - intros ([key nd'] & Hin%elem_of_map_to_list & Hf).
    destruct (child_of k key) as [n'|] eqn:Hc; simplify_eq/=.
    apply child_of_Some in Hc as [-> Hv]. done.
  - intros [Hv Hl]. exists (k ++ [n], nd). split.
    + by apply elem_of_map_to_list.
    + by rewrite (proj2 (child_of_Some k (k ++ [n]) n)).
Qed.

Lemma elem_of_names_where p es n :
  n ∈ names_where p es ↔ ∃ nd, (n, nd) ∈ es ∧ p nd = true.
Proof.
  unfold names_where. rewrite list_elem_of_fmap. split.
  - intros ([n' nd] & -> & [Hp Hin]%list_elem_of_filter). by exists nd.
  - intros (nd & Hin & Hp). exists (n, nd). split; [done|].
    by apply list_elem_of_filter.
Qed.

Lemma node_at_snoc fs k n : node_at fs (k ++ [n]) = entries fs !! (k ++ [n]).
Proof. by destruct k. Qed.

(** Every triple of a walk comes from one directory listing. *)
Lemma walk_triple depth fs top root dirs files :
  (root, dirs, files) ∈ walk depth fs top →
  ∃ k, canon root = Some k ∧
       dirs = names_where is_dir_node (listdir fs k) ∧
       files = names_where (λ n, negb (is_dir_node n)) (listdir fs k).
Proof.
  revert top. induction depth as [|depth IH]; intros top; simpl.
  - by intros ?%elem_of_nil.
  - destruct (scandir fs top) as [es|] eqn:Hscan; [|by intros ?%elem_of_nil].
    unfold scandir in Hscan.
    destruct (canon top) as [k|] eqn:Hk; [|done].
    destruct (node_at fs k) as [[]|]; simplify_eq.
    intros [[= -> -> ->]|Hin]%elem_of_cons; [by exists k|].
    apply list_elem_of_In, in_flat_map in Hin as (d & _ & Hin).
    apply list_elem_of_In in Hin. by eapply IH.
Qed.

(** The files a walk lists are regular files, found again under the path
    the program builds for them. *)
Lemma walk_file_resolves depth fs top root dirs files filename :
  (root, dirs, files) ∈ walk depth fs top → filename ∈ files →
  valid_name filename = true ∧
  ∃ data st, resolve fs (OsPath.join root filename) = Some (File data st).
Proof.
  intros (k & Hk & _ & ->)%walk_triple
         (nd & [Hv Hnd]%elem_of_listdir & Hfile)%elem_of_names_where.
  split; [done|]. destruct nd as [|data st]; [done|]. exists data, st.
  unfold resolve. rewrite (canon_join _ _ k) by done. simpl.
  by rewrite node_at_snoc.
Qed.

(** *** The depth of a walk

    The bound [max_depth] loses nothing: a deeper walk lists the same
    triples. *)

Lemma key_length_bound fs k :
  is_Some (entries fs !! k) → (length k < max_depth fs)%nat.
Proof.
  intros [nd Hk]. unfold max_depth. apply Nat.lt_succ_r.
  apply max_list_elem_of_le, list_elem_of_fmap. exists k. split; [done|].
  apply list_elem_of_fmap. exists (k, nd). split; [done|].
  by apply elem_of_map_to_list.
Qed.

Lemma walk_S depth fs top :
  walk (S depth) fs top =
    match scandir fs top with
    | None => []
    | Some es =>
        (top, names_where is_dir_node es,
         names_where (λ n, negb (is_dir_node n)) es)
          :: flat_map (λ d, walk depth fs (OsPath.join top d))
                      (names_where is_dir_node es)
    end.
Proof. done. Qed.

Lemma flat_map_ext_elem {A B} (f g : A → list B) l :
  (∀ x, x ∈ l → f x = g x) → flat_map f l = flat_map g l.
Proof.
  induction l as [|x l IH]; intros Hfg; [done|]. simpl.
  rewrite (Hfg x) by (by left). rewrite IH; [done|].
  intros y Hy. apply Hfg. by right.
Qed.

Lemma walk_deep_enough depth fs top :
  (∀ k, canon top = Some k → (max_depth fs ≤ depth + length k)%nat) →
  walk depth fs top = walk (S depth) fs top.
Proof.
  revert top. induction depth as [|depth IH]; intros top Hdeep.
  - rewrite walk_S. unfold scandir.
    destruct (canon top) as [k|] eqn:Hk; [|done].
    specialize (Hdeep k eq_refl). simpl in Hdeep.
    destruct k as [|c k]; [unfold max_depth in Hdeep; simpl in Hdeep; lia|].
    simpl. destruct (entries fs !! (c :: k)) as [nd|] eqn:Hnd; [|done].
    assert (length (c :: k) < max_depth fs)%nat by (by apply key_length_bound).
    lia.
  - rewrite (walk_S (S depth)), (walk_S depth).
    destruct (scandir fs top) as [es|] eqn:Hscan; [|done]. f_equal.
    apply flat_map_ext_elem. intros d (nd & Hd & _)%elem_of_names_where.
    apply IH. intros k' Hk'. unfold scandir in Hscan.
    destruct (canon top) as [k|] eqn:Hk; [|done].
    destruct (node_at fs k) as [[]|]; simplify_eq.
    apply elem_of_listdir in Hd as [Hv _].
    rewrite (canon_join _ _ k) in Hk' by done. injection Hk' as <-.
    specialize (Hdeep k eq_refl). rewrite length_app. simpl. lia.
Qed.

(** [os_walk] is the walk of any depth from [max_depth] on. *)
Lemma os_walk_any_depth fs top extra :
  walk (max_depth fs + extra) fs top = os_walk fs top.
Proof.
  unfold os_walk. induction extra as [|extra IH].
  - by rewrite Nat.add_0_r.
  - rewrite Nat.add_succ_r, <- IH. symmetry. apply walk_deep_enough.
    intros k _. lia.
Qed.

Lemma stat_file fs p data st :
  resolve fs p = Some (File data st) → stat fs p = inr st.
Proof. unfold stat. by intros ->. Qed.

End FSFacts.

(** * The filter: what [filter_files] returns *)

Section FilterFacts.
Import FS FSFacts.

Variable fromtimestamp : Z → datetime.

Lemma file_time_regular fs uct path data st :
  resolve fs path = Some (File data st) →
  file_time fromtimestamp fs uct path =
    inr (fromtimestamp (if uct then st_ctime st else st_mtime st)).
Proof.
  intros Hres. unfold file_time, getctime, getmtime.
  rewrite (stat_file _ _ _ _ Hres). by destruct uct.
Qed.

Lemma visit_file_regular fs from_dt to_dt formats uct root acc filename data st :
  resolve fs (OsPath.join root filename) = Some (File data st) →
  visit_file fromtimestamp fs from_dt to_dt formats uct root acc filename =
    inr (acc ++ if selected fromtimestamp fs from_dt to_dt formats uct (root, filename)
                then [OsPath.join root filename] else []).
Proof.
  intros Hres. unfold visit_file, selected. simpl.
  rewrite (file_time_regular _ uct _ _ _ Hres).
  destruct (bool_decide (_ ∈ formats)); simpl; [|by rewrite app_nil_r].
  unfold getctime, getmtime. rewrite (stat_file _ _ _ _ Hres).
  unfold in_window.
  destruct uct; simpl; by (destruct (_ && _); [|rewrite app_nil_r]).
Qed.

Lemma inner_loop fs from_dt to_dt formats uct root files acc :
  regular_under fs root files →
  for_each (visit_file fromtimestamp fs from_dt to_dt formats uct root) files acc =
    inr (acc ++ (path_of <$>
           filter (λ e, selected fromtimestamp fs from_dt to_dt formats uct e = true)
                  (pair root <$> files))).
Proof.
  revert acc. induction files as [|f files IH]; intros acc Hreg.
  - simpl. by rewrite app_nil_r.
  - destruct (Hreg f) as (data & st & Hres); [by left|].
    cbn [for_each]. rewrite (visit_file_regular _ _ _ _ _ _ _ _ _ _ Hres).
    rewrite IH by (intros f' Hf'; apply Hreg; by right).
    rewrite fmap_cons, filter_cons.
    destruct (decide _) as [Hsel|Hsel].
    + rewrite Hsel. by rewrite <- (assoc_L (++)).
    + apply not_true_is_false in Hsel. rewrite Hsel. by rewrite app_nil_r.
Qed.

Lemma outer_loop fs from_dt to_dt formats uct
    (triples : list (string * list string * list string)) acc :
  (∀ root dirs files, (root, dirs, files) ∈ triples → regular_under fs root files) →
  for_each
    (λ matching_files '(root, _, files),
       for_each (visit_file fromtimestamp fs from_dt to_dt formats uct root)
                files matching_files)
    triples acc =
    inr (acc ++ (path_of <$>
           filter (λ e, selected fromtimestamp fs from_dt to_dt formats uct e = true)
                  (triples ≫= λ '(root, _, files), pair root <$> files))).
Proof.
  revert acc. induction triples as [|[[root dirs] files] triples IH];
    intros acc Hreg.
  - simpl. by rewrite app_nil_r.
  - cbn [for_each]. rewrite inner_loop by (eapply Hreg; by left).
    rewrite IH by (intros r d f Hin; eapply Hreg; by right).
    rewrite bind_cons, filter_app, fmap_app. by rewrite (assoc_L (++)).
Qed.

Lemma os_walk_regular fs top root dirs files :
  (root, dirs, files) ∈ os_walk fs top → regular_under fs root files.
Proof. intros Hin f Hf. by eapply walk_file_resolves. Qed.

(** With well-formed time stamps and a format left after normalisation,
    [filter_files] returns, and returns the selected files in the order of
    the walk. *)
Lemma filter_files_returns fs folder from_ts to_ts formats uct from_dt to_dt :
  DateTime.strptime from_ts = Some from_dt →
  DateTime.strptime to_ts = Some to_dt →
  normalize_formats formats ≠ [] →
  filter_files fromtimestamp fs folder from_ts to_ts formats uct =
    inr (path_of <$>
           filter (λ e, selected fromtimestamp fs from_dt to_dt (normalize_formats formats) uct e = true)
                  (walk_files fs folder)).
Proof.
  intros Hfrom Hto Hfmt. unfold filter_files. rewrite Hfrom, Hto.
  destruct (normalize_formats formats) as [|fmt fmts] eqn:Hnorm; [done|].
  simpl. rewrite outer_loop; [done|]. apply os_walk_regular.
Qed.


End FilterFacts.

(** ** The order of datetimes *)

Module DateTimeFacts.
Import DateTime.







End DateTimeFacts.

(** ** Membership in the result of the filter *)

Section FilterMembership.
Import FS FSFacts PathFacts.

Variable fromtimestamp : Z → datetime.

Lemma selected_iff fs from_dt to_dt formats uct root filename :
  selected fromtimestamp fs from_dt to_dt formats uct (root, filename) = true ↔
    extension filename ∈ formats ∧
    ∃ t, file_time fromtimestamp fs uct (OsPath.join root filename) = inr t ∧
         in_window from_dt to_dt t = true.
Proof.
  unfold selected. simpl. rewrite andb_true_iff, bool_decide_eq_true.
  split.
  - intros [Hext Hw]. split; [done|].
    destruct (file_time _ _ _ _) as [e|t]; [done|]. by exists t.
  - by intros (Hext & t & -> & Hw).
Qed.


End FilterMembership.

(** * Properties of the filter *)

Section FilterClaims.
Import FS FSFacts PathFacts DateTimeFacts.

Variable fromtimestamp : Z → datetime.




End FilterClaims.

(** * The format list *)

Module FormatFacts.
Import PyStr PyStrFacts.

(** What one piece of the comma-separated list contributes. *)
Lemma normalize_formats_pieces before piece after :
  Forall (λ t, contains_char "," t = false) (before ++ piece :: after) →
  normalize_formats (join "," (before ++ piece :: after)) =
    normalize_formats (join "," (before ++ [""])) ++
    (if decide (strip piece ≠ "")
     then [lstrip_dots (lower (strip piece))] else []) ++
    normalize_formats (join "," ("" :: after)).
Proof.
  intros Hall. pose proof Hall as [Hb [Hp Ha]%Forall_cons]%Forall_app.
  unfold normalize_formats.
  rewrite !split_join; try done; try by destruct before.
  - rewrite !filter_app, !filter_cons, filter_nil, !fmap_app.
    destruct (decide (strip "" ≠ "")) as [H|_]; [by destruct H|].
    rewrite fmap_nil, app_nil_r.
    by destruct (decide (strip piece ≠ "")).
  - by constructor.
  - apply Forall_app. split; [done|]. by repeat constructor.
Qed.

Lemma upper_is_empty s : map_chars upper_char s = "" ↔ s = "".
Proof. by destruct s. Qed.

(** Upper-casing a piece of ASCII text does not change what it
    contributes. *)
Lemma piece_upper piece :
  all_chars is_ascii piece = true →
  (if decide (strip (upper piece) ≠ "")
   then [lstrip_dots (lower (strip (upper piece)))] else []) =
  (if decide (strip piece ≠ "") then [lstrip_dots (lower (strip piece))] else []).
Proof.
  intros Hascii. rewrite (upper_ascii piece Hascii), strip_upper, lower_upper.
  destruct (decide (strip piece ≠ "")) as [Hne|He].
  - rewrite decide_True; [done|]. by rewrite upper_is_empty.
  - rewrite decide_False; [done|]. by rewrite upper_is_empty.
Qed.

Lemma strip_padded ws c ext :
  all_chars is_space ws = true → is_space c = false →
  strip (ws +:+ String c ext) = String c (rstrip_by is_space ext).
Proof.
  intros Hws Hc. unfold strip. rewrite lstrip_spaces_app by done.
  cbn [lstrip_by]. rewrite Hc. by apply rstrip_nonempty.
Qed.

(** A dot put in front of the extension does not change what the piece
    contributes. *)
Lemma piece_leading_dot ws c ext :
  all_chars is_space ws = true → is_space c = false →
  (if decide (strip (ws +:+ String "." (String c ext)) ≠ "")
   then [lstrip_dots (lower (strip (ws +:+ String "." (String c ext))))] else []) =
  (if decide (strip (ws +:+ String c ext) ≠ "")
   then [lstrip_dots (lower (strip (ws +:+ String c ext)))] else []).
Proof.
  intros Hws Hc. rewrite !strip_padded by done.
  cbn [rstrip_by]. rewrite Hc, andb_false_r.
  by rewrite !decide_True.
Qed.

Lemma contains_char_app c s t :
  contains_char c (s +:+ t) = contains_char c s || contains_char c t.
Proof.
  induction s as [|c' s IH]; [done|]. rewrite app_String. simpl.
  by rewrite IH, orb_assoc.
Qed.

End FormatFacts.

(** * The copy loop and the handler *)

Section HandlerFacts.
Import FS.

Variable fromtimestamp : Z → datetime.

Lemma copy_loop_cons dest src rest acc fs :
  copy_loop dest (src :: rest) acc fs =
    match Shutil.copy2 src (dest_path_of dest src) fs with
    | (fs', inr _) => copy_loop dest rest (acc ++ [dest_path_of dest src]) fs'
    | (fs', inl _) => copy_loop dest rest acc fs'
    end.
Proof.
  simpl. unfold bind, try_except, ret, dest_path_of.
  by destruct (Shutil.copy2 _ _ fs) as [fs' [e|[]]].
Qed.

(** The loop never raises, and collects the destination paths of the
    attempts that succeeded, in order. *)
Lemma copy_loop_spec dest ms acc fs :
  copy_loop dest ms acc fs =
    (copy_final_state dest ms fs, inr (acc ++ copied_in dest ms fs)).
Proof.
  revert acc fs. induction ms as [|src rest IH]; intros acc fs.
  - simpl. unfold ret, copied_in. simpl. by rewrite app_nil_r.
  - rewrite copy_loop_cons. unfold copied_in. cbn [copy_outcomes copy_final_state].
    destruct (Shutil.copy2 _ _ fs) as [fs1 [e|[]]]; rewrite IH; [done|].
    unfold copied_in. simpl. by rewrite <- (assoc_L (++)).
Qed.

Lemma copied_in_cons dest src rest fs :
  copied_in dest (src :: rest) fs =
    (if (Shutil.copy2 src (dest_path_of dest src) fs).2 is inr _
     then [dest_path_of dest src] else [])
    ++ copied_in dest rest (Shutil.copy2 src (dest_path_of dest src) fs).1.
Proof.
  unfold copied_in. cbn [copy_outcomes].
  by destruct (Shutil.copy2 _ _ fs) as [fs1 [e|[]]].
Qed.

Lemma copy_final_state_app dest l1 l2 fs :
  copy_final_state dest (l1 ++ l2) fs =
    copy_final_state dest l2 (copy_final_state dest l1 fs).
Proof. revert fs. induction l1 as [|src l1 IH]; intros fs; [done|]. simpl. apply IH. Qed.

Lemma copied_in_app dest l1 l2 fs :
  copied_in dest (l1 ++ l2) fs =
    copied_in dest l1 fs ++ copied_in dest l2 (copy_final_state dest l1 fs).
Proof.
  revert fs. induction l1 as [|src l1 IH]; intros fs; [done|].
  rewrite <- app_comm_cons, !copied_in_cons, IH. simpl.
  by rewrite (assoc_L (++)).
Qed.

Lemma length_copy_outcomes dest ms fs : length (copy_outcomes dest ms fs) = length ms.
Proof.
  revert fs. induction ms as [|src rest IH]; intros fs; [done|].
  cbn [copy_outcomes]. destruct (Shutil.copy2 _ _ fs) as [fs1 [e|[]]]; simpl; by rewrite IH.
Qed.

Lemma length_copied_paths dest ms (outcomes : list bool) :
  length outcomes = length ms →
  length (copied_paths dest (zip ms outcomes)) = length (filter (λ ok, ok = true) outcomes) ∧
  (length ms = length (copied_paths dest (zip ms outcomes))
             + length (filter (λ ok, ok = false) outcomes))%nat.
Proof.
  revert outcomes. induction ms as [|src rest IH]; intros [|ok outcomes] Hlen;
    simplify_eq/=; [done|].
  destruct (IH outcomes) as [IH1 IH2]; [done|].
  destruct ok; simpl.
  - rewrite (filter_cons_False (λ ok, ok = false)) by done. lia.
  - rewrite (filter_cons_False (λ ok, ok = true)) by done. lia.
Qed.

Lemma copied_paths_sublist dest ms (outcomes : list bool) :
  sublist (copied_paths dest (zip ms outcomes)) (dest_path_of dest <$> ms).
Proof.
  revert outcomes. induction ms as [|src rest IH]; intros [|ok outcomes]; simpl.
  - constructor.
  - constructor.
  - apply sublist_nil_l.
  - unfold copied_paths in *. simpl. destruct ok; simpl.
    + by apply sublist_skip.
    + by apply sublist_cons.
Qed.

(** The handler, as the sequence of its steps. *)
Lemma filter_and_copy_run req fs :
  filter_and_copy fromtimestamp req fs =
    if negb (isdir fs (source_folder req)) then
      (fs, inl (HTTPException 400
                  ("Source folder does not exist or is not a directory: "
                     +:+ source_folder req)))
    else if negb (isdir fs (dest_folder_base req)) then
      (fs, inl (HTTPException 400
                  ("Destination base folder does not exist: "
                     +:+ dest_folder_base req)))
    else
      let dest := OsPath.join (dest_folder_base req) (dest_folder_name req) in
      match Shutil.makedirs dest true fs with
      | (fs1, inl e) => (fs1, inl e)
      | (fs1, inr _) =>
          match filter_files fromtimestamp fs1 (source_folder req)
                  (from_timestamp req) (to_timestamp req) (file_formats req)
                  (use_created_time req) with
          | inl e => (fs1, inl (HTTPException 400 (exn_str e)))
          | inr matching =>
              match copy_loop dest matching [] fs1 with
              | (fs2, inl e) => (fs2, inl e)
              | (fs2, inr copied) =>
                  (fs2, inr {| status := "success";
                               count := Z.of_nat (length copied);
                               destination_folder := dest;
                               copied_files := copied;
                               skipped_files :=
                                 Z.of_nat (length matching) - Z.of_nat (length copied) |})
              end
          end
      end.
Proof.
  unfold filter_and_copy, bind, reading, raise, try_except, ret.
  destruct (isdir fs (source_folder req)); simpl; [|done].
  destruct (isdir fs (dest_folder_base req)); simpl; [|done].
  destruct (Shutil.makedirs _ true fs) as [fs1 [e|[]]]; [done|].
  destruct (filter_files _ fs1 _ _ _ _ _) as [e|matching]; [done|].
  by destruct (copy_loop _ matching [] fs1) as [fs2 [e|copied]].
Qed.

End HandlerFacts.

(** * Properties of input validation *)

Section ValidationClaims.
Import FS PyStr PyStrFacts FormatFacts.

Variable fromtimestamp : Z → datetime.

(** A request whose filter raises: it fails, and once the folders are
    checked and the destination is made, with HTTP 400 and the text of the
    exception as detail. *)
Lemma request_of_failed_filter req e :
  (∀ fs, filter_files fromtimestamp fs (source_folder req) (from_timestamp req)
           (to_timestamp req) (file_formats req) (use_created_time req) = inl e) →
  (∀ fs, ∃ e', (filter_and_copy fromtimestamp req fs).2 = inl e') ∧
  (∀ fs fs1,
     isdir fs (source_folder req) = true →
     isdir fs (dest_folder_base req) = true →
     Shutil.makedirs (OsPath.join (dest_folder_base req) (dest_folder_name req))
                     true fs = (fs1, inr tt) →
     filter_and_copy fromtimestamp req fs = (fs1, inl (HTTPException 400 (exn_str e)))).
Proof.
  intros Hfail. split.
  - intros fs. rewrite filter_and_copy_run.
    destruct (isdir fs (source_folder req)); simpl; [|by eexists].
    destruct (isdir fs (dest_folder_base req)); simpl; [|by eexists].
    destruct (Shutil.makedirs _ true fs) as [fs1 [e'|[]]]; [by eexists|].
    rewrite Hfail. by eexists.
  - intros fs fs1 Hsrc Hbase Hmk. rewrite filter_and_copy_run, Hsrc, Hbase. simpl.
    by rewrite Hmk, Hfail.
Qed.

Lemma filter_files_same_formats fs folder from_ts to_ts formats formats' uct :
  normalize_formats formats = normalize_formats formats' →
  filter_files fromtimestamp fs folder from_ts to_ts formats uct =
  filter_files fromtimestamp fs folder from_ts to_ts formats' uct.
Proof. intros Heq. unfold filter_files. by rewrite Heq. Qed.

Lemma exn_str_invalid_timestamp :
  exn_str invalid_timestamp =
    "400: Invalid timestamp format. Use 'YYYY-MM-DD HH:MM:SS'".
Proof. vm_compute. reflexivity. Qed.

Lemma exn_str_no_valid_formats :
  exn_str no_valid_formats = "400: No valid file formats provided".
Proof. vm_compute. reflexivity. Qed.

Lemma upper_char_comma c : upper_char c = ","%char → c = ","%char.
Proof.
  assert (bool_decide (upper_char c = ","%char) = bool_decide (c = ","%char)) as Heq
    by (destruct c as [[] [] [] [] [] [] [] []]; vm_compute; reflexivity).
  intros H. eapply bool_decide_eq_true_1. rewrite <- Heq.
  by apply bool_decide_eq_true_2.
Qed.

(** C8.  A time stamp, in the from or in the to position, that does not
    parse against [YYYY-MM-DD HH:MM:SS] makes the filter raise the HTTP 400
    error of the invalid format; the request fails, and the error it
    surfaces once the filter is reached is HTTP 400 with a detail that
    mentions the invalid format. *)
Theorem C8_unparsable_timestamp_is_http_400 req :
  DateTime.strptime (from_timestamp req) = None ∨
  DateTime.strptime (to_timestamp req) = None →
  (∀ fs folder formats uct,
     filter_files fromtimestamp fs folder (from_timestamp req) (to_timestamp req)
                  formats uct =
       inl (HTTPException 400 "Invalid timestamp format. Use 'YYYY-MM-DD HH:MM:SS'")) ∧
  (∀ fs, ∃ e, (filter_and_copy fromtimestamp req fs).2 = inl e) ∧
  (∀ fs fs1,
     isdir fs (source_folder req) = true →
     isdir fs (dest_folder_base req) = true →
     Shutil.makedirs (OsPath.join (dest_folder_base req) (dest_folder_name req))
                     true fs = (fs1, inr tt) →
     (filter_and_copy fromtimestamp req fs).2 =
       inl (HTTPException 400
              "400: Invalid timestamp format. Use 'YYYY-MM-DD HH:MM:SS'")) ∧
  contains "Invalid timestamp format"
           "400: Invalid timestamp format. Use 'YYYY-MM-DD HH:MM:SS'" = true.
Proof.
  intros Hbad.
  assert (∀ fs folder formats uct,
    filter_files fromtimestamp fs folder (from_timestamp req) (to_timestamp req)
                 formats uct = inl invalid_timestamp) as Hfilter.
  { intros fs folder formats uct. unfold filter_files.
    destruct Hbad as [-> | ->]; [done|].
    by destruct (DateTime.strptime (from_timestamp req)). }
  destruct (request_of_failed_filter req invalid_timestamp) as [Hfails Hdetail];
    [by intros fs|].
  split; [exact Hfilter|]. split; [exact Hfails|]. split; [|by vm_compute].
  intros fs fs1 Hsrc Hbase Hmk.
  rewrite (Hdetail fs fs1), exn_str_invalid_timestamp; reflexivity || assumption.
Qed.

(** C5 (amended).  When every piece of the comma-separated [file_formats] is
    empty once trimmed (as in [""] and [" , "]), and the time stamps are
    well formed, the filter raises the HTTP 400 error of the empty format
    list, and the request fails with it. *)
Theorem C5_blank_format_list_is_http_400 req from_dt to_dt :
  DateTime.strptime (from_timestamp req) = Some from_dt →
  DateTime.strptime (to_timestamp req) = Some to_dt →
  Forall (λ fmt, strip fmt = "") (split "," (file_formats req)) →
  (∀ fs folder uct,
     filter_files fromtimestamp fs folder (from_timestamp req) (to_timestamp req)
                  (file_formats req) uct =
       inl (HTTPException 400 "No valid file formats provided")) ∧
  (∀ fs, ∃ e, (filter_and_copy fromtimestamp req fs).2 = inl e) ∧
  (∀ fs fs1,
     isdir fs (source_folder req) = true →
     isdir fs (dest_folder_base req) = true →
     Shutil.makedirs (OsPath.join (dest_folder_base req) (dest_folder_name req))
                     true fs = (fs1, inr tt) →
     (filter_and_copy fromtimestamp req fs).2 =
       inl (HTTPException 400 "400: No valid file formats provided")).
Proof.
  intros Hfrom Hto Hblank.
  assert (normalize_formats (file_formats req) = []) as Hnorm.
  { unfold normalize_formats.
    induction Hblank as [|fmt fmts Hfmt _ IH]; [done|].
    rewrite filter_cons_False; [done|]. by intros []. }
  assert (∀ fs folder uct,
    filter_files fromtimestamp fs folder (from_timestamp req) (to_timestamp req)
                 (file_formats req) uct = inl no_valid_formats) as Hfilter.
  { intros fs folder uct. unfold filter_files. by rewrite Hfrom, Hto, Hnorm. }
  destruct (request_of_failed_filter req no_valid_formats) as [Hfails Hdetail];
    [by intros fs|].
  split; [exact Hfilter|]. split; [exact Hfails|].
  intros fs fs1 Hsrc Hbase Hmk.
  rewrite (Hdetail fs fs1), exn_str_no_valid_formats; reflexivity || assumption.
Qed.

(** C7 (amended).  In a comma-separated format list, replacing a token of
    ASCII text by its upper case form, or putting a dot in front of the
    extension such a token holds (in front of the token when it does not
    begin with white space, after its leading white space otherwise), leaves
    the result of the filter unchanged on every file system; in particular
    ["TXT"], [".txt"] and ["txt"] are the same filter. *)
Theorem C7_ascii_case_and_leading_dot_are_ignored
    fs folder from_ts to_ts uct before after :
  Forall (λ t, contains_char "," t = false) (before ++ after) →
  (∀ token,
     all_chars is_ascii token = true → contains_char "," token = false →
     filter_files fromtimestamp fs folder from_ts to_ts
                  (join "," (before ++ upper token :: after)) uct =
     filter_files fromtimestamp fs folder from_ts to_ts
                  (join "," (before ++ token :: after)) uct) ∧
  (∀ c rest,
     all_chars is_ascii (String c rest) = true → is_space c = false →
     contains_char "," (String c rest) = false →
     filter_files fromtimestamp fs folder from_ts to_ts
                  (join "," (before ++ String "." (String c rest) :: after)) uct =
     filter_files fromtimestamp fs folder from_ts to_ts
                  (join "," (before ++ String c rest :: after)) uct) ∧
  (∀ ws c rest,
     all_chars is_space ws = true →
     all_chars is_ascii (String c rest) = true → is_space c = false →
     contains_char "," (ws +:+ String c rest) = false →
     filter_files fromtimestamp fs folder from_ts to_ts
                  (join "," (before ++ (ws +:+ String "." (String c rest)) :: after)) uct =
     filter_files fromtimestamp fs folder from_ts to_ts
                  (join "," (before ++ (ws +:+ String c rest) :: after)) uct) ∧
  filter_files fromtimestamp fs folder from_ts to_ts "TXT" uct =
    filter_files fromtimestamp fs folder from_ts to_ts "txt" uct ∧
  filter_files fromtimestamp fs folder from_ts to_ts ".txt" uct =
    filter_files fromtimestamp fs folder from_ts to_ts "txt" uct.
Proof.
  intros [Hb Ha]%Forall_app.
  assert (∀ t, contains_char "," t = false →
            Forall (λ t, contains_char "," t = false) (before ++ t :: after)) as Hall.
  { intros t Ht. apply Forall_app. split; [done|]. by constructor. }
  assert (∀ ws c rest,
     all_chars is_space ws = true → is_space c = false →
     contains_char "," (ws +:+ String c rest) = false →
     filter_files fromtimestamp fs folder from_ts to_ts
                  (join "," (before ++ (ws +:+ String "." (String c rest)) :: after)) uct =
     filter_files fromtimestamp fs folder from_ts to_ts
                  (join "," (before ++ (ws +:+ String c rest) :: after)) uct) as Hdotted.
  { intros ws c rest Hws Hc Hcomma. apply filter_files_same_formats.
    assert (contains_char "," (ws +:+ String "." (String c rest)) = false) as Hdot.
    { rewrite contains_char_app in *.
      apply orb_false_iff in Hcomma as [-> Hcomma]. exact Hcomma. }
    rewrite (normalize_formats_pieces before (ws +:+ String "." (String c rest)) after)
      by (by apply Hall).
    rewrite (normalize_formats_pieces before (ws +:+ String c rest) after)
      by (by apply Hall).
    by rewrite piece_leading_dot. }
  split; [|split; [|split; [|split]]].
  - intros token Hascii Htoken. apply filter_files_same_formats.
    assert (contains_char "," (upper token) = false) as Hupper.
    { rewrite (upper_ascii token Hascii).
      rewrite contains_char_upper; [done|done|apply upper_char_comma]. }
    rewrite (normalize_formats_pieces before (upper token) after) by (by apply Hall).
    rewrite (normalize_formats_pieces before token after) by (by apply Hall).
    by rewrite (piece_upper token Hascii).
  - intros c rest _ Hc Hcomma. exact (Hdotted "" c rest eq_refl Hc Hcomma).
  - intros ws c rest Hws _ Hc Hcomma. exact (Hdotted ws c rest Hws Hc Hcomma).
  - apply filter_files_same_formats. by vm_compute.
  - apply filter_files_same_formats. by vm_compute.
Qed.

End ValidationClaims.

(** * How the file system evolves *)

Module EvolutionFacts.
Import FS Shutil.

Lemma node_at_set_node k n fs k' :
  k ≠ [] →
  node_at (set_node k n fs) k' = if decide (k' = k) then Some n else node_at fs k'.
Proof.
  intros Hk. destruct k' as [|x k'].
  - by rewrite decide_False.
  - simpl. rewrite lookup_insert. destruct (decide (x :: k' = k)) as [->|Hne].
    + by rewrite decide_True.
    + by rewrite decide_False.
Qed.

Lemma snoc_not_nil {A} (l : list A) x : l ++ [x] ≠ [].
Proof. by destruct l. Qed.

Lemma isdir_is_dir_at fs p :
  isdir fs p = match canon p with Some k => is_dir_at fs k | None => false end.
Proof. unfold isdir, resolve, is_dir_at. by destruct (canon p). Qed.

(** What it takes for [copy2] to succeed, and what it then does. *)
Lemma copy2_inv src dst fs fs' r :
  copy2 src dst fs = (fs', r) →
  (fs' = fs ∧ ∃ e, r = inl e) ∨
  (r = inr tt ∧ ∃ ks kd data st,
     canon src = Some ks ∧ node_at fs ks = Some (File data st) ∧
     canon (target fs src dst) = Some kd ∧ kd ≠ ks ∧
     is_dir_at fs kd = false ∧ is_dir_at fs (removelast kd) = true ∧
     owner_can_read st = true ∧
     (∀ old std, node_at fs kd = Some (File old std) → owner_can_write std = true) ∧
     fs' = set_node kd (File data (copystat st (clock fs))) fs).
Proof.
  unfold copy2. fold (target fs src dst).
  destruct (canon src) as [ks|] eqn:Hks; [|intros [= <- <-]; left; eauto].
  destruct (node_at fs ks) as [n|] eqn:Hn; [|intros [= <- <-]; left; eauto].
  destruct (bool_decide (canon (target fs src dst) = Some ks)) eqn:Hsame;
    [intros [= <- <-]; left; eauto|].
  apply bool_decide_eq_false in Hsame.
  destruct n as [st|data st]; [intros [= <- <-]; left; eauto|].
  destruct (owner_can_read st) eqn:Hread; cbn [negb];
    [|intros [= <- <-]; left; eauto].
  destruct (canon (target fs src dst)) as [kd|] eqn:Hkd;
    [|intros [= <- <-]; left; eauto].
  unfold is_dir_at.
  destruct (node_at fs kd) as [[std|datad std]|] eqn:Hnd;
    [intros [= <- <-]; left; eauto|..];
    (destruct (node_at fs (removelast kd)) as [[stp|datap stp]|] eqn:Hp;
     [|intros [= <- <-]; left; eauto..]).
  - destruct (owner_can_write std) eqn:Hwrite; [|intros [= <- <-]; left; eauto].
    intros [= <- <-]. right. split; [done|].
    exists ks, kd, data, st.
    split; [done|]. split; [done|]. split; [done|]. split; [by intros ->|].
    split; [by rewrite Hnd|]. split; [by rewrite Hp|]. split; [done|]. split; [|done].
    intros old std' Hold. rewrite Hnd in Hold. by injection Hold as _ <-.
  - intros [= <- <-]. right. split; [done|].
    exists ks, kd, data, st.
    split; [done|]. split; [done|]. split; [done|]. split; [by intros ->|].
    split; [by rewrite Hnd|]. split; [by rewrite Hp|]. split; [done|]. split; [|done].
    intros old std' Hold. by rewrite Hnd in Hold.
Qed.

Lemma copy2_success src dst fs ks kd data st :
  canon src = Some ks → node_at fs ks = Some (File data st) →
  canon (target fs src dst) = Some kd → kd ≠ ks →
  is_dir_at fs kd = false → is_dir_at fs (removelast kd) = true →
  owner_can_read st = true →
  (∀ old std, node_at fs kd = Some (File old std) → owner_can_write std = true) →
  copy2 src dst fs =
    (set_node kd (File data (copystat st (clock fs))) fs, inr tt).
Proof.
  intros Hks Hn Hkd Hne Hnd Hp Hread Hwrite. unfold copy2. fold (target fs src dst).
  rewrite Hks, Hn, Hkd. rewrite bool_decide_eq_false_2 by congruence.
  rewrite Hread. cbn [negb]. unfold is_dir_at in *.
  destruct (node_at fs kd) as [[std|datad std]|]; [done|..];
    destruct (node_at fs (removelast kd)) as [[stp|datap stp]|]; try done.
  by rewrite (Hwrite datad std).
Qed.

(** A destination that is there and read-only: the copy is refused. *)
Lemma copy2_read_only src dst fs ks kd data st old std :
  canon src = Some ks → node_at fs ks = Some (File data st) →
  canon (target fs src dst) = Some kd → kd ≠ ks →
  is_dir_at fs (removelast kd) = true → owner_can_read st = true →
  node_at fs kd = Some (File old std) → owner_can_write std = false →
  copy2 src dst fs = (fs, inl (OSError PermissionError (target fs src dst))).
Proof.
  intros Hks Hn Hkd Hne Hp Hread Hold Hwrite. unfold copy2. fold (target fs src dst).
  rewrite Hks, Hn, Hkd. rewrite bool_decide_eq_false_2 by congruence.
  rewrite Hread, Hold. cbn [negb]. unfold is_dir_at in *.
  destruct (node_at fs (removelast kd)) as [[stp|datap stp]|]; try done.
  by rewrite Hwrite.
Qed.

(** *** Copies only write files *)

Lemma only_files_written_refl fs : only_files_written fs fs.
Proof. by intros k. Qed.

Lemma only_files_written_trans fs1 fs2 fs3 :
  only_files_written fs1 fs2 → only_files_written fs2 fs3 →
  only_files_written fs1 fs3.
Proof.
  intros H12 H23 k. destruct (H12 k) as [Hd12 Hf12], (H23 k) as [Hd23 Hf23].
  split; [congruence|auto].
Qed.

Lemma copy2_only_files_written src dst fs :
  only_files_written fs (copy2 src dst fs).1.
Proof.
  destruct (copy2 src dst fs) as [fs' r] eqn:Hcopy.
  apply copy2_inv in Hcopy as [[-> _]|(_ & ks & kd & data & st & Hks & Hn & Hkd
    & Hne & Hnd & Hp & _ & _ & ->)]; [apply only_files_written_refl|].
  assert (kd ≠ []) as Hnil by (intros ->; done).
  intros k. simpl. unfold is_dir_at, is_file_at.
  rewrite node_at_set_node by done. destruct (decide (k = kd)) as [->|Hk]; [|done].
  unfold is_dir_at in Hnd. split; [|done].
  by destruct (node_at fs kd) as [[]|].
Qed.

Lemma copy_final_state_only_files_written dest ms fs :
  only_files_written fs (copy_final_state dest ms fs).
Proof.
  revert fs. induction ms as [|src rest IH]; intros fs; simpl.
  - apply only_files_written_refl.
  - eapply only_files_written_trans; [apply copy2_only_files_written|apply IH].
Qed.

Lemma only_files_written_isdir fs fs' p :
  only_files_written fs fs' → isdir fs' p = isdir fs p.
Proof.
  intros Hw. rewrite !isdir_is_dir_at. destruct (canon p) as [k|]; [|done].
  apply Hw.
Qed.

(** *** Permissions *)

Lemma writable_files_node_at fs k data st :
  writable_files fs → node_at fs k = Some (File data st) → owner_can_write st = true.
Proof.
  intros Hw. destruct k as [|x k]; [done|]. simpl. intros Hk.
  exact (Hw (x :: k) (File data st) Hk).
Qed.

(** A copy has the permission bits of its source: where no file is
    read-only, none is after a copy. *)
Lemma copy2_writable_files src dst fs :
  writable_files fs → writable_files (copy2 src dst fs).1.
Proof.
  intros Hw. destruct (copy2 src dst fs) as [fs' r] eqn:Hcopy.
  apply copy2_inv in Hcopy as [[-> _]|(_ & ks & kd & data & st & Hks & Hn & _
    & _ & _ & _ & _ & _ & ->)]; [done|].
  unfold writable_files. simpl. apply map_Forall_insert_2; [|done].
  exact (writable_files_node_at fs ks data st Hw Hn).
Qed.

Lemma copy_final_state_writable_files dest ms fs :
  writable_files fs → writable_files (copy_final_state dest ms fs).
Proof.
  revert fs. induction ms as [|src rest IH]; intros fs Hw; [done|].
  simpl. by apply IH, copy2_writable_files.
Qed.

Lemma copy2_keeps_readable src dst fs k :
  readable_file_at fs k = true → readable_file_at (copy2 src dst fs).1 k = true.
Proof.
  destruct (copy2 src dst fs) as [fs' r] eqn:Hcopy.
  apply copy2_inv in Hcopy as [[-> _]|(_ & ks & kd & data & st & Hks & Hn & Hkd
    & Hne & Hnd & Hp & Hread & _ & ->)]; [done|].
  assert (kd ≠ []) as Hnil by (intros ->; done).
  simpl. unfold readable_file_at. rewrite node_at_set_node by done.
  by destruct (decide (k = kd)).
Qed.

Lemma copy_final_state_keeps_readable dest ms fs k :
  readable_file_at fs k = true →
  readable_file_at (copy_final_state dest ms fs) k = true.
Proof.
  revert fs. induction ms as [|src rest IH]; intros fs Hr; [done|].
  simpl. by apply IH, copy2_keeps_readable.
Qed.

(** A copy that succeeded succeeds again later, when no file is
    read-only. *)
Lemma copy2_succeeds_later src dst fs fs' :
  only_files_written fs fs' →
  (∀ k, readable_file_at fs k = true → readable_file_at fs' k = true) →
  writable_files fs' →
  (copy2 src dst fs).2 = inr tt → (copy2 src dst fs').2 = inr tt.
Proof.
  intros Hw Hr Hwritable Hok.
  destruct (copy2 src dst fs) as [fs1 r] eqn:Hcopy. simpl in Hok. subst r.
  apply copy2_inv in Hcopy as [[_ [e [=]]]|(_ & ks & kd & data & st & Hks
    & Hn & Hkd & Hne & Hnd & Hp & Hread & _ & _)].
  assert (target fs' src dst = target fs src dst) as Htarget.
  { unfold target. by rewrite (only_files_written_isdir fs fs'). }
  assert (readable_file_at fs' ks = true) as Hfile.
  { apply Hr. unfold readable_file_at. by rewrite Hn. }
  unfold readable_file_at in Hfile.
  destruct (node_at fs' ks) as [[st'|data' st']|] eqn:Hn'; try done.
  rewrite (copy2_success src dst fs' ks kd data' st'); try done.
  - by rewrite Htarget.
  - by rewrite (proj1 (Hw kd)).
  - by rewrite (proj1 (Hw (removelast kd))).
  - intros old std Hold. by apply (writable_files_node_at fs' kd old std).
Qed.

(** What the loop copied from [fs0], it copies again from the state it
    left, when no file is read-only. *)
Lemma copied_again dest matching fs0 l pre :
  writable_files fs0 → matching = pre ++ l →
  copied_in dest l (copy_final_state dest pre fs0)
    `sublist_of`
  copied_in dest l (copy_final_state dest pre (copy_final_state dest matching fs0)).
Proof.
  intros Hwritable. revert pre.
  induction l as [|src rest IH]; intros pre ->; [done|].
  set (fs1 := copy_final_state dest (pre ++ src :: rest) fs0).
  set (first_run := copy_final_state dest pre fs0).
  set (second_run := copy_final_state dest pre fs1).
  specialize (IH (pre ++ [src])).
  rewrite <- (assoc_L (++)) in IH. specialize (IH eq_refl). fold fs1 in IH.
  rewrite !copy_final_state_app in IH. cbn [copy_final_state] in IH.
  fold first_run second_run in IH.
  rewrite !copied_in_cons. apply sublist_app; [|exact IH].
  destruct (copy2 src (dest_path_of dest src) first_run).2 as [e|[]] eqn:Hok.
  { apply sublist_nil_l. }
  rewrite (copy2_succeeds_later src _ first_run second_run); try done.
  - eapply only_files_written_trans; [|apply copy_final_state_only_files_written].
    unfold fs1. rewrite copy_final_state_app. fold first_run.
    apply copy_final_state_only_files_written.
  - intros k Hk. apply copy_final_state_keeps_readable.
    unfold fs1. rewrite copy_final_state_app. fold first_run.
    by apply copy_final_state_keeps_readable.
  - by do 2 apply copy_final_state_writable_files.
Qed.

End EvolutionFacts.

Module MakedirsFacts.
Import FS Shutil EvolutionFacts.

Lemma only_dirs_added_refl fs : only_dirs_added fs fs.
Proof. intros k. by left. Qed.

Lemma only_dirs_added_trans fs1 fs2 fs3 :
  only_dirs_added fs1 fs2 → only_dirs_added fs2 fs3 → only_dirs_added fs1 fs3.
Proof.
  intros H12 H23 k.
  destruct (H12 k) as [E12|[N1 D2]], (H23 k) as [E23|[N2 D3]];
    unfold is_dir_at in *.
  - left. congruence.
  - right. split; [congruence|done].
  - right. split; [done|]. by rewrite E23.
  - by rewrite N2 in D2.
Qed.

Lemma only_dirs_added_same_files fs fs' : only_dirs_added fs fs' → same_files fs fs'.
Proof.
  intros Hadd k data st.
  destruct (Hadd k) as [->|[Hnone Hdir]]; [done|]. unfold is_dir_at in Hdir.
  rewrite Hnone. split; [|done]. intros Hfile. by rewrite Hfile in Hdir.
Qed.

Lemma only_dirs_added_keeps_dirs fs fs' k :
  only_dirs_added fs fs' → is_dir_at fs k = true → is_dir_at fs' k = true.
Proof.
  intros Hadd.
  destruct (Hadd k) as [Heq|[Hnone Hdir]]; unfold is_dir_at in *;
    [by rewrite Heq|by rewrite Hnone].
Qed.

Lemma set_node_dir_added k st fs :
  k ≠ [] → node_at fs k = None → only_dirs_added fs (set_node k (Dir st) fs).
Proof.
  intros Hk Hnone k'. unfold is_dir_at. rewrite node_at_set_node by done.
  destruct (decide (k' = k)) as [->|]; [by right|by left].
Qed.

Lemma mkdirs_only_dirs_added exist_ok name cur comps fs :
  only_dirs_added fs (mkdirs exist_ok name cur comps fs).1.
Proof.
  revert cur fs. induction comps as [|c rest IH]; intros cur fs; simpl.
  - apply only_dirs_added_refl.
  - destruct (node_at fs (cur ++ [c])) as [[st|data st]|] eqn:Hn.
    + destruct (is_empty_list rest && negb exist_ok); [apply only_dirs_added_refl|].
      apply IH.
    + apply only_dirs_added_refl.
    + eapply only_dirs_added_trans; [|apply IH].
      apply set_node_dir_added; [apply snoc_not_nil|done].
Qed.

(** After [mkdirs] returned, every directory along the path is there. *)
Lemma mkdirs_ok exist_ok name cur comps fs fs' p :
  mkdirs exist_ok name cur comps fs = (fs', inr tt) →
  p ≠ [] → p `prefix_of` comps → is_dir_at fs' (cur ++ p) = true.
Proof.
  revert cur fs p. induction comps as [|c rest IH]; intros cur fs p; simpl.
  - intros _ Hp [k Hk]. by destruct p.
  - intros Hmk Hp [k Hk]. destruct p as [|c' p]; [done|]. simplify_eq/=.
    assert (∀ fs0, is_dir_at fs0 (cur ++ [c']) = true →
              mkdirs exist_ok name (cur ++ [c']) (p ++ k) fs0 = (fs', inr tt) →
              is_dir_at fs' (cur ++ c' :: p) = true) as Hstep.
    { intros fs0 Hdir Hrec. destruct p as [|c'' p].
      - pose proof (mkdirs_only_dirs_added exist_ok name (cur ++ [c']) k fs0) as Hadd.
        simpl in Hrec. rewrite Hrec in Hadd.
        by eapply only_dirs_added_keeps_dirs.
      - rewrite (cons_middle c' cur), (assoc_L (++)).
        eapply IH; [exact Hrec|done|by eexists]. }
    destruct (node_at fs (cur ++ [c'])) as [[st|data st]|] eqn:Hn; [| done |].
    + destruct (is_empty_list (p ++ k) && negb exist_ok); [done|].
      eapply Hstep; [|done]. unfold is_dir_at. by rewrite Hn.
    + eapply Hstep; [|done]. unfold is_dir_at.
      rewrite node_at_set_node by apply snoc_not_nil. by rewrite decide_True.
Qed.

(** Where every directory along the path is there, [mkdirs] with
    [exist_ok] changes nothing and raises nothing. *)
Lemma mkdirs_noop name cur comps fs :
  (∀ p, p ≠ [] → p `prefix_of` comps → is_dir_at fs (cur ++ p) = true) →
  mkdirs true name cur comps fs = (fs, inr tt).
Proof.
  revert cur. induction comps as [|c rest IH]; intros cur Hdirs; simpl; [done|].
  pose proof (Hdirs [c]) as Hc. unfold is_dir_at in Hc.
  destruct (node_at fs (cur ++ [c])) as [[st|data st]|];
    [|by discriminate Hc; [|eexists]..].
  rewrite andb_false_r. apply IH. intros p Hp [k Hk].
  rewrite <- (assoc_L (++)). apply Hdirs; [done|]. exists k. by rewrite Hk.
Qed.

Lemma makedirs_only_dirs_added name exist_ok fs :
  only_dirs_added fs (makedirs name exist_ok fs).1.
Proof.
  unfold makedirs. destruct (canon name) as [[|c comps]|].
  - destruct exist_ok; apply only_dirs_added_refl.
  - apply mkdirs_only_dirs_added.
  - apply only_dirs_added_refl.
Qed.

Lemma is_dir_at_root fs : is_dir_at fs [] = true.
Proof. done. Qed.

Lemma makedirs_ok name fs fs' :
  makedirs name true fs = (fs', inr tt) →
  ∃ k, canon name = Some k ∧ ∀ p, p `prefix_of` k → is_dir_at fs' p = true.
Proof.
  unfold makedirs. destruct (canon name) as [[|c comps]|] eqn:Hk; [| |done].
  - intros [= <-]. exists []. split; [done|]. intros p [k Hp]. by destruct p.
  - intros Hmk. exists (c :: comps). split; [done|]. intros p Hp.
    destruct p as [|c' p]; [done|].
    by apply (mkdirs_ok true name [] (c :: comps) fs fs' (c' :: p)).
Qed.

Lemma makedirs_noop name k fs :
  canon name = Some k → (∀ p, p `prefix_of` k → is_dir_at fs p = true) →
  makedirs name true fs = (fs, inr tt).
Proof.
  intros Hk Hdirs. unfold makedirs. rewrite Hk. destruct k as [|c comps]; [done|].
  apply mkdirs_noop. intros p _ Hp. by apply Hdirs.
Qed.

End MakedirsFacts.

(** * Properties of the copy step and of the response *)

Section CopyClaims.
Import FS Shutil EvolutionFacts MakedirsFacts.

Variable fromtimestamp : Z → datetime.

(** A successful response, read back: the steps that led to it. *)
Lemma success_inv req fs fs2 resp :
  filter_and_copy fromtimestamp req fs = (fs2, inr resp) →
  let dest := OsPath.join (dest_folder_base req) (dest_folder_name req) in
  ∃ fs1 matching,
    isdir fs (source_folder req) = true ∧
    isdir fs (dest_folder_base req) = true ∧
    makedirs dest true fs = (fs1, inr tt) ∧
    filter_files fromtimestamp fs1 (source_folder req) (from_timestamp req)
      (to_timestamp req) (file_formats req) (use_created_time req) = inr matching ∧
    fs2 = copy_final_state dest matching fs1 ∧
    resp = {| status := "success";
              count := Z.of_nat (length (copied_in dest matching fs1));
              destination_folder := dest;
              copied_files := copied_in dest matching fs1;
              skipped_files := Z.of_nat (length matching)
                               - Z.of_nat (length (copied_in dest matching fs1)) |}.
Proof.
  rewrite filter_and_copy_run. intros Hrun dest. fold dest in Hrun.
  destruct (isdir fs (source_folder req)); simpl in Hrun; [|done].
  destruct (isdir fs (dest_folder_base req)); simpl in Hrun; [|done].
  destruct (makedirs dest true fs) as [fs1 [e|[]]] eqn:Hmk; [done|].
  destruct (filter_files _ fs1 _ _ _ _ _) as [e|matching] eqn:Hfilter; [done|].
  rewrite copy_loop_spec in Hrun. simpl in Hrun. injection Hrun as <- <-.
  by exists fs1, matching.
Qed.

(** Once the filter has returned, the request succeeds whatever the copies do. *)
Lemma success_of_matching req fs fs1 matching :
  isdir fs (source_folder req) = true →
  isdir fs (dest_folder_base req) = true →
  makedirs (OsPath.join (dest_folder_base req) (dest_folder_name req)) true fs
    = (fs1, inr tt) →
  filter_files fromtimestamp fs1 (source_folder req) (from_timestamp req)
    (to_timestamp req) (file_formats req) (use_created_time req) = inr matching →
  ∃ resp, filter_and_copy fromtimestamp req fs =
            (copy_final_state (OsPath.join (dest_folder_base req) (dest_folder_name req))
                              matching fs1, inr resp).
Proof.
  intros Hsrc Hbase Hmk Hfilter.
  rewrite filter_and_copy_run, Hsrc, Hbase. simpl. rewrite Hmk, Hfilter.
  rewrite copy_loop_spec. by eexists.
Qed.

(** C2.  A failure while copying one file never aborts the batch: the loop
    returns for every list of matched files, with one attempt per matched
    file; a file whose copy fails adds nothing to [copied_files] and the files
    after it are attempted from the state it left; and in the response
    [skipped_files] is the number of failed attempts, so that copied plus
    skipped is the number of matched files. *)
Theorem C2_copy_failure_is_skipped :
  (∀ dest matching fs,
     copy_loop dest matching [] fs =
       (copy_final_state dest matching fs, inr (copied_in dest matching fs)) ∧
     length (copy_outcomes dest matching fs) = length matching) ∧
  (∀ dest before src after fs e,
     let fs1 := copy_final_state dest before fs in
     (copy2 src (dest_path_of dest src) fs1).2 = inl e →
     copy_loop dest (before ++ src :: after) [] fs =
       (copy_final_state dest after fs1,
        inr (copied_in dest before fs ++ copied_in dest after fs1))) ∧
  (∀ req fs fs1 matching,
     isdir fs (source_folder req) = true →
     isdir fs (dest_folder_base req) = true →
     makedirs (OsPath.join (dest_folder_base req) (dest_folder_name req)) true fs
       = (fs1, inr tt) →
     filter_files fromtimestamp fs1 (source_folder req) (from_timestamp req)
       (to_timestamp req) (file_formats req) (use_created_time req) = inr matching →
     ∃ fs2 resp,
       filter_and_copy fromtimestamp req fs = (fs2, inr resp) ∧
       let outcomes :=
         copy_outcomes (destination_folder resp) matching fs1 in
       copied_files resp =
         copied_paths (destination_folder resp) (zip matching outcomes) ∧
       count resp = Z.of_nat (length (filter (λ ok, ok = true) outcomes)) ∧
       skipped_files resp = Z.of_nat (length (filter (λ ok, ok = false) outcomes)) ∧
       count resp + skipped_files resp = Z.of_nat (length matching)).
Proof.
  split; [|split].
  - intros dest matching fs. split; [|apply length_copy_outcomes].
    by rewrite copy_loop_spec.
  - intros dest before src after fs e fs1 Hfail.
    rewrite copy_loop_spec, copy_final_state_app, copied_in_app. fold fs1.
    cbn [copy_final_state]. rewrite copied_in_cons.
    destruct (copy2 src (dest_path_of dest src) fs1) as [fs' r] eqn:Hcopy.
    simpl in Hfail. subst r.
    apply copy2_inv in Hcopy as [[-> _]|[[=] _]]. done.
  - intros req fs fs1 matching Hsrc Hbase Hmk Hfilter.
    destruct (success_of_matching req fs fs1 matching) as [resp Hrun]; try done.
    eexists _, resp. split; [exact Hrun|].
    apply success_inv in Hrun as (fs1' & matching' & _ & _ & Hmk' & Hfilter' & _ & ->).
    simpl. rewrite Hmk in Hmk'. injection Hmk' as <-.
    rewrite Hfilter in Hfilter'. injection Hfilter' as <-.
    set (dest := OsPath.join _ _).
    destruct (length_copied_paths dest matching (copy_outcomes dest matching fs1))
      as [Hcopied Hall]; [apply length_copy_outcomes|].
    unfold copied_in. rewrite <- Hcopied. repeat split; lia.
Qed.


End CopyClaims.

(** * Properties of the order of effects *)

Section EffectClaims.
Import FS Shutil EvolutionFacts MakedirsFacts.

Variable fromtimestamp : Z → datetime.

Lemma filter_files_inr_inv fs folder from_ts to_ts formats uct matching :
  filter_files fromtimestamp fs folder from_ts to_ts formats uct = inr matching →
  ∃ from_dt to_dt,
    DateTime.strptime from_ts = Some from_dt ∧
    DateTime.strptime to_ts = Some to_dt ∧
    normalize_formats formats ≠ [].
Proof.
  unfold filter_files.
  destruct (DateTime.strptime from_ts) as [from_dt|]; [|done].
  destruct (DateTime.strptime to_ts) as [to_dt|]; [|done].
  destruct (normalize_formats formats); [done|]. by exists from_dt, to_dt.
Qed.

Lemma only_dirs_added_isdir fs fs' p :
  only_dirs_added fs fs' → isdir fs p = true → isdir fs' p = true.
Proof.
  intros Hadd. rewrite !isdir_is_dir_at. destruct (canon p) as [k|]; [|done].
  by apply only_dirs_added_keeps_dirs.
Qed.

Lemma only_files_written_same_dirs fs fs' k :
  only_files_written fs fs' → is_dir_at fs' k = is_dir_at fs k.
Proof. intros Hw. apply Hw. Qed.

(** C3 (amended).  A request that fails the validation of its time stamps
    or of its format list ends in an error and copies no file: the regular
    files are those of before.  The only effect it can have had is the
    creation of the destination folder, which comes before the filter; a
    request that fails the check of one of its folders has no effect at
    all. *)
Theorem C3_failed_validation_copies_no_file req fs :
  DateTime.strptime (from_timestamp req) = None ∨
  DateTime.strptime (to_timestamp req) = None ∨
  normalize_formats (file_formats req) = [] →
  let dest := OsPath.join (dest_folder_base req) (dest_folder_name req) in
  let r := filter_and_copy fromtimestamp req fs in
  (∃ e, r.2 = inl e) ∧
  same_files fs r.1 ∧
  (isdir fs (source_folder req) = false ∨ isdir fs (dest_folder_base req) = false →
   r.1 = fs) ∧
  (isdir fs (source_folder req) = true → isdir fs (dest_folder_base req) = true →
   r.1 = (makedirs dest true fs).1).
Proof.
  intros Hbad dest r.
  assert (∀ fs1, ∃ e, filter_files fromtimestamp fs1 (source_folder req)
            (from_timestamp req) (to_timestamp req) (file_formats req)
            (use_created_time req) = inl e) as Hfilter.
  { intros fs1. unfold filter_files.
    destruct (DateTime.strptime (from_timestamp req)) as [from_dt|] eqn:Hfrom;
      [|by eexists].
    destruct (DateTime.strptime (to_timestamp req)) as [to_dt|] eqn:Hto;
      [|by eexists].
    destruct Hbad as [?|[?|Hnil]]; [done|done|]. rewrite Hnil. by eexists. }
  assert (same_files fs fs) as Hrefl by done.
  subst r. rewrite filter_and_copy_run. fold dest.
  destruct (isdir fs (source_folder req)) eqn:Hsrc; simpl;
    [|by (split; [by eexists|])].
  destruct (isdir fs (dest_folder_base req)) eqn:Hbase; simpl;
    [|by (split; [by eexists|])].
  pose proof (makedirs_only_dirs_added dest true fs) as Hadd.
  destruct (makedirs dest true fs) as [fs1 [e|[]]] eqn:Hmk; simpl in *.
  { split; [by eexists|]. split; [by apply only_dirs_added_same_files|].
    split; [by intros [|]|done]. }
  destruct (Hfilter fs1) as [e ->]. simpl.
  split; [by eexists|]. split; [by apply only_dirs_added_same_files|].
  split; [by intros [|]|done].
Qed.

(** C9 (amended).  Creating the destination folder is idempotent, and a
    second run overwrites the same-named files that are not read-only.  Once
    [os.makedirs] has made the folder, the copy loop returns, the folder and
    every parent segment exist after it, making the folder again raises
    nothing and changes nothing, and the loop returns again; where no regular
    file is read-only, the second run copies again every file the first
    copied.  Coming to a source file that can be read, the loop overwrites a
    file of the same name in the folder that its owner can write, with the
    data, the permission bits and the modification time of the source, and
    skips one that is read-only.  The request that follows a
    successful request succeeds as well; in the example it copies the same
    three files again. *)
Theorem C9_second_run_overwrites_writable_files :
  (∀ fs dest matching fs0,
     makedirs dest true fs = (fs0, inr tt) →
     ∃ fs1 copied1 fs2 copied2,
       copy_loop dest matching [] fs0 = (fs1, inr copied1) ∧
       (∃ k, canon dest = Some k ∧ ∀ p, p `prefix_of` k → is_dir_at fs1 p = true) ∧
       isdir fs1 dest = true ∧
       makedirs dest true fs1 = (fs1, inr tt) ∧
       copy_loop dest matching [] fs1 = (fs2, inr copied2) ∧
       (writable_files fs0 → copied1 `sublist_of` copied2)) ∧
  (∀ dest src rest copied fs ks kd data st old std,
     plain_path src → no_parent_refs dest →
     canon src = Some ks → node_at fs ks = Some (File data st) →
     owner_can_read st = true →
     canon (dest_path_of dest src) = Some kd → kd ≠ ks →
     is_dir_at fs (removelast kd) = true →
     node_at fs kd = Some (File old std) →
     copy_loop dest (src :: rest) copied fs =
       if owner_can_write std
       then copy_loop dest rest (copied ++ [dest_path_of dest src])
              (set_node kd (File data (mk_stat (st_mode st) (st_mtime st) (clock fs))) fs)
       else copy_loop dest rest copied fs) ∧
  (∀ req fs fs1 resp,
     filter_and_copy fromtimestamp req fs = (fs1, inr resp) →
     isdir fs1 (destination_folder resp) = true ∧
     ∃ fs2 resp2,
       filter_and_copy fromtimestamp req fs1 = (fs2, inr resp2) ∧
       destination_folder resp2 = destination_folder resp) ∧
  (∃ fs1 resp1 fs2 resp2,
     filter_and_copy DateTime.utc_fromtimestamp Example1.req0 Example1.fs0
       = (fs1, inr resp1) ∧
     filter_and_copy DateTime.utc_fromtimestamp Example1.req0 fs1
       = (fs2, inr resp2) ∧
     copied_files resp2 = ["/out/run1/a.txt"; "/out/run1/txt"; "/out/run1/a.txt"] ∧
     copied_files resp2 = copied_files resp1 ∧
     skipped_files resp2 = 0 ∧
     ∃ st, resolve fs2 "/out/run1/a.txt" = Some (File "gamma" st)).
Proof.
  assert (∀ fs dest matching fs0,
     makedirs dest true fs = (fs0, inr tt) →
     (∃ k, canon dest = Some k ∧
           ∀ p, p `prefix_of` k →
                is_dir_at (copy_final_state dest matching fs0) p = true) ∧
     isdir (copy_final_state dest matching fs0) dest = true ∧
     makedirs dest true (copy_final_state dest matching fs0)
       = (copy_final_state dest matching fs0, inr tt)) as Hdirs.
  { intros fs dest matching fs0 Hmk.
    apply makedirs_ok in Hmk as (k & Hk & Hprefix).
    pose proof (copy_final_state_only_files_written dest matching fs0) as Hw.
    assert (∀ p, p `prefix_of` k →
              is_dir_at (copy_final_state dest matching fs0) p = true) as Hprefix1.
    { intros p Hp. rewrite (only_files_written_same_dirs fs0) by done. by apply Hprefix. }
    split; [by exists k|]. split.
    - rewrite isdir_is_dir_at, Hk. by apply Hprefix1.
    - by apply (makedirs_noop dest k). }
  split; [|split; [|split]].
  - intros fs dest matching fs0 Hmk.
    destruct (Hdirs fs dest matching fs0 Hmk) as (Hk & Hisdir & Hnoop).
    set (fs1 := copy_final_state dest matching fs0) in *.
    exists fs1, (copied_in dest matching fs0),
           (copy_final_state dest matching fs1), (copied_in dest matching fs1).
    rewrite !copy_loop_spec. fold fs1.
    split; [done|]. split; [done|]. split; [done|]. split; [done|]. split; [done|].
    intros Hwritable. exact (copied_again dest matching fs0 matching [] Hwritable eq_refl).
  - intros dest src rest copied fs ks kd data st old std
           _ _ Hks Hn Hread Hkd Hne Hparent Hold.
    rewrite copy_loop_cons.
    assert (target fs src (dest_path_of dest src) = dest_path_of dest src) as Htarget.
    { unfold target. rewrite isdir_is_dir_at, Hkd. unfold is_dir_at. by rewrite Hold. }
    destruct (owner_can_write std) eqn:Hwrite.
    + rewrite (copy2_success src _ fs ks kd data st); try done.
      * by rewrite Htarget.
      * unfold is_dir_at. by rewrite Hold.
      * intros old' std' Hold'. rewrite Hold in Hold'. by injection Hold' as _ <-.
    + rewrite (copy2_read_only src _ fs ks kd data st old std); try done.
      by rewrite Htarget.
  - intros req fs fs1 resp Hrun.
    apply success_inv in Hrun
      as (fs0 & matching & Hsrc & Hbase & Hmk & Hfilter & -> & ->).
    set (dest := OsPath.join _ _) in *. simpl.
    destruct (Hdirs fs dest matching fs0 Hmk) as (_ & Hisdir & Hnoop).
    split; [done|].
    pose proof (makedirs_only_dirs_added dest true fs) as Hadd.
    rewrite Hmk in Hadd. simpl in Hadd.
    pose proof (copy_final_state_only_files_written dest matching fs0) as Hw.
    set (fs1 := copy_final_state dest matching fs0) in *.
    apply filter_files_inr_inv in Hfilter as (from_dt & to_dt & Hfrom & Hto & Hne).
    destruct (success_of_matching fromtimestamp req fs1 fs1
                (path_of <$> filter
                   (λ e, selected fromtimestamp fs1 from_dt to_dt
                           (normalize_formats (file_formats req))
                           (use_created_time req) e = true)
                   (walk_files fs1 (source_folder req))))
      as [resp2 Hrun2].
    + rewrite (only_files_written_isdir fs0 fs1) by done.
      by apply (only_dirs_added_isdir fs).
    + rewrite (only_files_written_isdir fs0 fs1) by done.
      by apply (only_dirs_added_isdir fs).
    + exact Hnoop.
    + by apply filter_files_returns.
    + eexists _, resp2. split; [exact Hrun2|].
      by apply success_inv in Hrun2 as (? & ? & _ & _ & _ & _ & _ & ->).
  - eexists _, _, _, _. split; [vm_compute; reflexivity|].
    split; [vm_compute; reflexivity|].
    split; [reflexivity|]. split; [reflexivity|]. split; [reflexivity|].
    eexists. vm_compute. reflexivity.
Qed.

End EffectClaims.

(** * The properties at concrete inputs *)

Module Instances.
Import Example1.





(** A token of dots is kept, as the empty extension, and nothing is raised. *)
Lemma C5_counterexample :
  normalize_formats "..." = [""] ∧
  filter_files utc fs0 "/data" "2024-01-01 00:00:00" "2024-01-01 23:59:59"
               "..." false = inr [] ∧
  (filter_and_copy utc dots_request fs0).2 =
    inr (mk_response "success" 0 "/out/run1" [] 0).
Proof. split; [|split]; vm_compute; reflexivity. Qed.

Lemma C5_witness :
  (∀ fs folder uct,
     filter_files utc fs folder "2024-01-01 00:00:00" "2024-01-01 23:59:59"
                  " , " uct =
       inl (HTTPException 400 "No valid file formats provided")) ∧
  (∀ fs, ∃ e, (filter_and_copy utc blank_formats_request fs).2 = inl e) ∧
  (∀ fs fs1,
     FS.isdir fs "/data" = true →
     FS.isdir fs "/out" = true →
     Shutil.makedirs (OsPath.join "/out" "run1") true fs = (fs1, inr tt) →
     (filter_and_copy utc blank_formats_request fs).2 =
       inl (HTTPException 400 "400: No valid file formats provided")).
Proof.
  apply (C5_blank_format_list_is_http_400 utc blank_formats_request
           midnight end_of_day).
  - vm_compute. reflexivity.
  - vm_compute. reflexivity.
  - vm_compute. repeat constructor.
Defined.

(** The upper case of a sharp s is [SS], which lowers to [ss]: the two
    filters match different files.  The dot in front of [" txt"] keeps the
    blank from being trimmed: the filter matches nothing. *)
Lemma C7_counterexample :
  PyStr.upper eszett = "SS" ∧
  filter_files utc fs_eszett "/data" "2024-01-01 00:00:00" "2024-01-01 23:59:59"
               eszett false = inr ["/data/x." +:+ eszett] ∧
  filter_files utc fs_eszett "/data" "2024-01-01 00:00:00" "2024-01-01 23:59:59"
               (PyStr.upper eszett) false = inr ["/data/x.SS"] ∧
  filter_files utc fs0 "/data" "2024-01-01 00:00:00" "2024-01-01 23:59:59"
               " txt" false = inr matching0 ∧
  filter_files utc fs0 "/data" "2024-01-01 00:00:00" "2024-01-01 23:59:59"
               (String "." " txt") false = inr [].
Proof. split; [|split; [|split; [|split]]]; vm_compute; reflexivity. Qed.

Lemma C7_witness :
  Forall (λ t, PyStr.contains_char "," t = false) (["log"] ++ ["py"]) ∧
  filter_files utc fs0 "/data" "2024-01-01 00:00:00" "2024-01-01 23:59:59"
               (PyStr.join "," (["log"] ++ PyStr.upper "txt" :: ["py"])) false =
  filter_files utc fs0 "/data" "2024-01-01 00:00:00" "2024-01-01 23:59:59"
               (PyStr.join "," (["log"] ++ "txt" :: ["py"])) false ∧
  filter_files utc fs0 "/data" "2024-01-01 00:00:00" "2024-01-01 23:59:59"
               (PyStr.join "," (["log"] ++ String "." "txt" :: ["py"])) false =
  filter_files utc fs0 "/data" "2024-01-01 00:00:00" "2024-01-01 23:59:59"
               (PyStr.join "," (["log"] ++ "txt" :: ["py"])) false ∧
  filter_files utc fs0 "/data" "2024-01-01 00:00:00" "2024-01-01 23:59:59"
               (PyStr.join "," (["log"] ++ (" " +:+ String "." "txt") :: ["py"])) false =
  filter_files utc fs0 "/data" "2024-01-01 00:00:00" "2024-01-01 23:59:59"
               (PyStr.join "," (["log"] ++ (" " +:+ "txt") :: ["py"])) false.
Proof.
  assert (Forall (λ t, PyStr.contains_char "," t = false) (["log"] ++ ["py"]))
    as Hall by (repeat constructor).
  split; [exact Hall|]. split; [|split].
  - exact (proj1 (C7_ascii_case_and_leading_dot_are_ignored utc fs0 "/data"
                    "2024-01-01 00:00:00" "2024-01-01 23:59:59" false
                    ["log"] ["py"] Hall) "txt" eq_refl eq_refl).
  - exact (proj1 (proj2 (C7_ascii_case_and_leading_dot_are_ignored utc fs0 "/data"
                           "2024-01-01 00:00:00" "2024-01-01 23:59:59" false
                           ["log"] ["py"] Hall)) "t"%char "xt" eq_refl eq_refl eq_refl).
  - exact (proj1 (proj2 (proj2 (C7_ascii_case_and_leading_dot_are_ignored utc fs0
                                  "/data" "2024-01-01 00:00:00" "2024-01-01 23:59:59"
                                  false ["log"] ["py"] Hall)))
             " " "t"%char "xt" eq_refl eq_refl eq_refl eq_refl).
Defined.

Lemma C8_witness :
  (∀ fs folder formats uct,
     filter_files utc fs folder "2024/01/01" "2024-01-01 23:59:59" formats uct =
       inl (HTTPException 400 "Invalid timestamp format. Use 'YYYY-MM-DD HH:MM:SS'")) ∧
  (∀ fs, ∃ e, (filter_and_copy utc bad_timestamp_request fs).2 = inl e) ∧
  (∀ fs fs1,
     FS.isdir fs "/data" = true →
     FS.isdir fs "/out" = true →
     Shutil.makedirs (OsPath.join "/out" "run1") true fs = (fs1, inr tt) →
     (filter_and_copy utc bad_timestamp_request fs).2 =
       inl (HTTPException 400
              "400: Invalid timestamp format. Use 'YYYY-MM-DD HH:MM:SS'")) ∧
  PyStr.contains "Invalid timestamp format"
                 "400: Invalid timestamp format. Use 'YYYY-MM-DD HH:MM:SS'" = true.
Proof.
  apply (C8_unparsable_timestamp_is_http_400 utc bad_timestamp_request).
  left. vm_compute. reflexivity.
Defined.

(** The malformed time stamp is found after the destination folder was
    made: the folder is there when the request has failed. *)
Lemma C3_counterexample :
  DateTime.strptime (from_timestamp bad_timestamp_request) = None ∧
  FS.isdir fs0 "/out/run1" = false ∧
  (filter_and_copy utc bad_timestamp_request fs0).2 =
    inl (HTTPException 400
           "400: Invalid timestamp format. Use 'YYYY-MM-DD HH:MM:SS'") ∧
  FS.isdir (filter_and_copy utc bad_timestamp_request fs0).1 "/out/run1" = true.
Proof. repeat split; vm_compute; reflexivity. Qed.

Lemma C3_witness :
  (∃ e, (filter_and_copy utc bad_timestamp_request fs0).2 = inl e) ∧
  same_files fs0 (filter_and_copy utc bad_timestamp_request fs0).1 ∧
  (FS.isdir fs0 "/data" = false ∨ FS.isdir fs0 "/out" = false →
   (filter_and_copy utc bad_timestamp_request fs0).1 = fs0) ∧
  (FS.isdir fs0 "/data" = true → FS.isdir fs0 "/out" = true →
   (filter_and_copy utc bad_timestamp_request fs0).1 =
     (Shutil.makedirs (OsPath.join "/out" "run1") true fs0).1).
Proof.
  apply (C3_failed_validation_copies_no_file utc bad_timestamp_request fs0).
  left. vm_compute. reflexivity.
Defined.

(** A matched file that has vanished: it is skipped, the files around it
    are copied. *)
Lemma C2_witness :
  (Shutil.copy2 "/data/missing.txt" (dest_path_of "/out/run1" "/data/missing.txt")
                (copy_final_state "/out/run1" ["/data/a.txt"] fs_made)).2
    = inl (OSError FileNotFoundError "/data/missing.txt") ∧
  copy_loop "/out/run1" (["/data/a.txt"] ++ "/data/missing.txt" :: ["/data/b.log"])
            [] fs_made =
    (copy_final_state "/out/run1" ["/data/b.log"]
       (copy_final_state "/out/run1" ["/data/a.txt"] fs_made),
     inr (copied_in "/out/run1" ["/data/a.txt"] fs_made ++
          copied_in "/out/run1" ["/data/b.log"]
            (copy_final_state "/out/run1" ["/data/a.txt"] fs_made))) ∧
  copied_in "/out/run1" ["/data/a.txt"] fs_made ++
  copied_in "/out/run1" ["/data/b.log"]
    (copy_final_state "/out/run1" ["/data/a.txt"] fs_made)
    = ["/out/run1/a.txt"; "/out/run1/b.log"].
Proof.
  assert ((Shutil.copy2 "/data/missing.txt"
             (dest_path_of "/out/run1" "/data/missing.txt")
             (copy_final_state "/out/run1" ["/data/a.txt"] fs_made)).2
          = inl (OSError FileNotFoundError "/data/missing.txt")) as Hfail
    by (vm_compute; reflexivity).
  split; [exact Hfail|]. split.
  - exact (proj1 (proj2 (C2_copy_failure_is_skipped utc)) "/out/run1"
             ["/data/a.txt"] "/data/missing.txt" ["/data/b.log"] fs_made
             (OSError FileNotFoundError "/data/missing.txt") Hfail).
  - vm_compute. reflexivity.
Defined.

(** A read-only source: its copy is read-only, and the second request does
    not overwrite it; the copy is skipped. *)
Lemma C9_counterexample :
  ∃ fs1 resp1 fs2 resp2,
    filter_and_copy utc req0 fs_read_only = (fs1, inr resp1) ∧
    copied_files resp1 = ["/out/run1/a.txt"] ∧ skipped_files resp1 = 0 ∧
    filter_and_copy utc req0 fs1 = (fs2, inr resp2) ∧
    copied_files resp2 = [] ∧ skipped_files resp2 = 1 ∧
    (Shutil.copy2 "/data/a.txt" "/out/run1/a.txt" fs1).2 =
      inl (OSError PermissionError "/out/run1/a.txt").
Proof.
  eexists _, _, _, _. split; [vm_compute; reflexivity|].
  split; [reflexivity|]. split; [reflexivity|].
  split; [vm_compute; reflexivity|].
  split; [reflexivity|]. split; [reflexivity|].
  vm_compute. reflexivity.
Qed.

(** Making [/out/run1] and copying the matched files into it, twice; and
    the second copy of [/data/sub/a.txt] onto what the first run left. *)
Lemma C9_witness :
  Shutil.makedirs "/out/run1" true fs0 = (fs_made, inr tt) ∧
  (∃ fs1 copied1 fs2 copied2,
     copy_loop "/out/run1" matching0 [] fs_made = (fs1, inr copied1) ∧
     FS.isdir fs1 "/out/run1" = true ∧
     Shutil.makedirs "/out/run1" true fs1 = (fs1, inr tt) ∧
     copy_loop "/out/run1" matching0 [] fs1 = (fs2, inr copied2) ∧
     copied1 `sublist_of` copied2) ∧
  copy_loop "/out/run1" ["/data/sub/a.txt"] []
            (copy_final_state "/out/run1" ["/data/a.txt"] fs_made) =
    (FS.set_node ["out"; "run1"; "a.txt"]
       (File "gamma" (mk_stat rw_r__r__ t_10h 1720000000000000))
       (copy_final_state "/out/run1" ["/data/a.txt"] fs_made),
     inr ["/out/run1/a.txt"]).
Proof.
  assert (Shutil.makedirs "/out/run1" true fs0 = (fs_made, inr tt)) as Hmk
    by (vm_compute; reflexivity).
  split; [exact Hmk|]. split.
  - destruct (proj1 (C9_second_run_overwrites_writable_files utc) fs0 "/out/run1"
                matching0 fs_made Hmk)
      as (fs1 & copied1 & fs2 & copied2 & Hrun1 & _ & Hisdir & Hagain & Hrun2 & Hsub).
    exists fs1, copied1, fs2, copied2.
    split; [exact Hrun1|]. split; [exact Hisdir|]. split; [exact Hagain|].
    split; [exact Hrun2|]. apply Hsub.
    apply (bool_decide_unpack _). vm_compute. exact I.
  - exact (proj1 (proj2 (C9_second_run_overwrites_writable_files utc))
             "/out/run1" "/data/sub/a.txt" [] []
             (copy_final_state "/out/run1" ["/data/a.txt"] fs_made)
             ["data"; "sub"; "a.txt"] ["out"; "run1"; "a.txt"]
             "gamma" (mk_stat rw_r__r__ t_10h t_10h)
             "alpha" (mk_stat rw_r__r__ t_10h 1720000000000000)
             ltac:(split; [apply (bool_decide_unpack _); vm_compute; exact I
                          |vm_compute; reflexivity])
             ltac:(apply (bool_decide_unpack _); vm_compute; exact I)
             ltac:(vm_compute; reflexivity) ltac:(vm_compute; reflexivity)
             ltac:(vm_compute; reflexivity) ltac:(vm_compute; reflexivity)
             ltac:(discriminate) ltac:(vm_compute; reflexivity)
             ltac:(vm_compute; reflexivity)).
Defined.


End Instances.

(** * Further properties: the errors of the handler *)

Section HandlerErrors.
Import FS Shutil EvolutionFacts MakedirsFacts.

Variable fromtimestamp : Z → datetime.



(** A regular file where the last directory should be made. *)
Lemma mkdirs_file_in_the_way exist_ok name cur comps fs data st :
  comps ≠ [] →
  (∀ p, p ≠ [] → p `prefix_of` comps → p ≠ comps → is_dir_at fs (cur ++ p) = true) →
  node_at fs (cur ++ comps) = Some (File data st) →
  mkdirs exist_ok name cur comps fs = (fs, inl (OSError FileExistsError name)).
Proof.
  revert cur. induction comps as [|c rest IH]; intros cur Hne Hdirs Hfile; [done|].
  simpl. destruct rest as [|c' rest].
  - by rewrite Hfile.
  - pose proof (Hdirs [c]) as Hc. unfold is_dir_at in Hc.
    destruct (node_at fs (cur ++ [c])) as [[std|datad std]|];
      [|by discriminate Hc; [|eexists|]..].
    simpl. apply IH; [done| |by rewrite <- (assoc_L (++))].
    intros p Hp [k Hk] Hneq. rewrite <- (assoc_L (++)).
    apply Hdirs; [done|by exists k; rewrite Hk|]. simpl. by intros [= ->].
Qed.

(** X1.  The folders are checked first, the source before the destination
    base, and before anything is read of the time stamps and the formats: a
    source that is not a directory, then a destination base that is not one,
    is HTTP 400 with the folder named in the detail, and the file system is
    left as it was. *)
Theorem X1_folder_checks_come_first req fs :
  (isdir fs (source_folder req) = false →
   filter_and_copy fromtimestamp req fs =
     (fs, inl (HTTPException 400
                 ("Source folder does not exist or is not a directory: "
                    +:+ source_folder req)))) ∧
  (isdir fs (source_folder req) = true →
   isdir fs (dest_folder_base req) = false →
   filter_and_copy fromtimestamp req fs =
     (fs, inl (HTTPException 400
                 ("Destination base folder does not exist: "
                    +:+ dest_folder_base req)))).
Proof.
  split.
  - intros Hsrc. by rewrite filter_and_copy_run, Hsrc.
  - intros Hsrc Hbase. by rewrite filter_and_copy_run, Hsrc, Hbase.
Qed.

(** X2.  A failure of [os.makedirs] is not caught: when the destination
    path is an existing regular file (its parents being directories), the
    request raises [FileExistsError] itself, not an HTTP 400, and nothing has
    changed. *)
Theorem X2_destination_in_the_way_is_not_a_400 req fs kd data st :
  let dest := OsPath.join (dest_folder_base req) (dest_folder_name req) in
  isdir fs (source_folder req) = true →
  isdir fs (dest_folder_base req) = true →
  canon dest = Some kd →
  (∀ p, p `prefix_of` kd → p ≠ kd → is_dir_at fs p = true) →
  node_at fs kd = Some (File data st) →
  filter_and_copy fromtimestamp req fs = (fs, inl (OSError FileExistsError dest)).
Proof.
  intros dest Hsrc Hbase Hkd Hdirs Hfile.
  rewrite filter_and_copy_run, Hsrc, Hbase. simpl. fold dest.
  unfold makedirs. rewrite Hkd. destruct kd as [|c comps]; [done|].
  rewrite (mkdirs_file_in_the_way true dest [] (c :: comps) fs data st); try done.
  intros p _ Hp Hneq. by apply Hdirs.
Qed.


(** X4.  The destination base does not confine the destination: with a
    destination name that is an absolute path, [os.path.join] drops the
    base, and a successful request reports, and copies into, the folder of
    that name. *)
Theorem X4_absolute_destination_name_drops_the_base req fs fs' resp :
  PyStr.starts_with_char "/" (dest_folder_name req) = true →
  filter_and_copy fromtimestamp req fs = (fs', inr resp) →
  destination_folder resp = dest_folder_name req ∧
  isdir fs' (dest_folder_name req) = true ∧
  ∀ p, p ∈ copied_files resp →
       ∃ src, p = OsPath.join (dest_folder_name req) (OsPath.basename src).
Proof.
  intros Habs Hrun.
  assert (OsPath.join (dest_folder_base req) (dest_folder_name req)
          = dest_folder_name req) as Hjoin.
  { unfold OsPath.join. by rewrite Habs. }
  apply (success_inv fromtimestamp) in Hrun
    as (fs1 & matching & _ & _ & Hmk & _ & -> & ->).
  rewrite Hjoin in *. simpl. split; [done|]. split.
  - rewrite (only_files_written_isdir fs1)
      by apply copy_final_state_only_files_written.
    apply makedirs_ok in Hmk as (k & Hk & Hdirs).
    rewrite isdir_is_dir_at, Hk. by apply Hdirs.
  - intros p Hp.
    eapply elem_of_sublist in Hp; [|apply copied_paths_sublist].
    apply list_elem_of_fmap in Hp as (src & -> & _). by exists src.
Qed.

(** X5.  On a folder that is not an existing directory [filter_files]
    raises nothing: [os.walk] yields nothing there, and the result is the
    empty list. *)
Theorem X5_filter_of_a_missing_folder_is_empty
    fs folder from_ts to_ts formats uct from_dt to_dt :
  DateTime.strptime from_ts = Some from_dt →
  DateTime.strptime to_ts = Some to_dt →
  normalize_formats formats ≠ [] →
  isdir fs folder = false →
  filter_files fromtimestamp fs folder from_ts to_ts formats uct = inr [].
Proof.
  intros Hfrom Hto Hne Hdir.
  rewrite (filter_files_returns _ _ _ _ _ _ _ _ _ Hfrom Hto Hne).
  assert (os_walk fs folder = []) as Hwalk.
  { unfold os_walk, max_depth. rewrite FSFacts.walk_S. unfold scandir.
    unfold isdir, resolve in Hdir. destruct (canon folder) as [k|]; [|done].
    simpl in Hdir. by destruct (node_at fs k) as [[]|]. }
  unfold walk_files. by rewrite Hwalk.
Qed.

End HandlerErrors.

(** * Further properties: extensions, formats and the range *)

Module ExtensionFacts.
Import PyStr PyStrFacts.

Lemma lower_char_dot c : lower_char c = "."%char ↔ c = "."%char.
Proof.
  assert (bool_decide (lower_char c = "."%char) = bool_decide (c = "."%char)) as Heq
    by (destruct c as [[] [] [] [] [] [] [] []]; vm_compute; reflexivity).
  split; intros H.
  - eapply bool_decide_eq_true_1. rewrite <- Heq. by apply bool_decide_eq_true_2.
  - eapply bool_decide_eq_true_1. rewrite Heq. by apply bool_decide_eq_true_2.
Qed.

Lemma upper_char_dot c : upper_char c = "."%char ↔ c = "."%char.
Proof.
  assert (bool_decide (upper_char c = "."%char) = bool_decide (c = "."%char)) as Heq
    by (destruct c as [[] [] [] [] [] [] [] []]; vm_compute; reflexivity).
  split; intros H.
  - eapply bool_decide_eq_true_1. rewrite <- Heq. by apply bool_decide_eq_true_2.
  - eapply bool_decide_eq_true_1. rewrite Heq. by apply bool_decide_eq_true_2.
Qed.

(** A case mapping that keeps the separator apart commutes with [split]. *)
Lemma split_go_map_chars f sep s :
  (∀ c, f c = sep ↔ c = sep) →
  split_go sep (map_chars f s) =
    (map_chars f (split_go sep s).1, map_chars f <$> (split_go sep s).2).
Proof.
  intros Hf. induction s as [|c s IH]; [done|]. simpl. rewrite IH.
  destruct (split_go sep s) as [p ps]. simpl.
  rewrite (bool_decide_ext (f c = sep) (c = sep)) by apply Hf.
  by destruct (bool_decide (c = sep)).
Qed.

Lemma split_map_chars f sep s :
  (∀ c, f c = sep ↔ c = sep) →
  split sep (map_chars f s) = map_chars f <$> split sep s.
Proof.
  intros Hf. unfold split. rewrite split_go_map_chars by done.
  by destruct (split_go sep s).
Qed.

Lemma last_piece_map_chars f l :
  last_piece (map_chars f <$> l) = map_chars f (last_piece l).
Proof.
  unfold last_piece. induction l as [|x l IH]; [done|].
  destruct l as [|y l]; [done|]. exact IH.
Qed.


End ExtensionFacts.

Section FilterAlgebra.
Import FS PyStr PyStrFacts ExtensionFacts DateTimeFacts.

Variable fromtimestamp : Z → datetime.

(** X6.  The extension of a file name is what follows its last dot, in
    lower case: [backup.tar.gz] has the extension [gz], the hidden file
    [.profile] the extension [profile], a name that ends in a dot the empty
    extension.  For a name of ASCII text the case of the name does not
    count: [REPORT.TXT] has the extension of [report.txt]. *)
Theorem X6_extension_is_after_the_last_dot stem ext :
  contains_char "." ext = false →
  extension (stem +:+ String "." ext) = lower ext ∧
  (all_chars is_ascii (stem +:+ String "." ext) = true →
   extension (upper (stem +:+ String "." ext)) = extension (stem +:+ String "." ext) ∧
   extension (lower (stem +:+ String "." ext)) = extension (stem +:+ String "." ext)).
Proof.
  intros Hext.
  assert (∀ name, all_chars is_ascii name = true →
            extension (upper name) = extension name) as Hupper.
  { intros name Hascii. rewrite (upper_ascii name Hascii). unfold extension.
    rewrite split_map_chars by apply upper_char_dot.
    rewrite last_piece_map_chars. apply lower_upper. }
  assert (∀ name, extension (lower name) = extension name) as Hlower.
  { intros name. unfold extension. unfold lower at 2.
    rewrite split_map_chars by apply lower_char_dot.
    rewrite last_piece_map_chars. apply lower_lower. }
  split; [|intros Hascii; split; [by apply Hupper|apply Hlower]].
  unfold extension. rewrite split_app, last_piece_app by apply split_nonempty.
  by rewrite split_no_sep.
Qed.

Lemma selected_same_formats fs from_dt to_dt formats formats' uct e :
  (extension e.2 ∈ formats ↔ extension e.2 ∈ formats') →
  selected fromtimestamp fs from_dt to_dt formats uct e =
  selected fromtimestamp fs from_dt to_dt formats' uct e.
Proof. intros Hiff. unfold selected. by rewrite (bool_decide_ext _ _ Hiff). Qed.

(** X7.  The format list counts as a set: two lists with the same formats
    after normalisation, in whatever order and however often repeated, with
    or without blank entries, give the same result of the filter, error
    included. *)
Theorem X7_formats_count_as_a_set fs folder from_ts to_ts formats formats' uct :
  (∀ x, x ∈ normalize_formats formats ↔ x ∈ normalize_formats formats') →
  filter_files fromtimestamp fs folder from_ts to_ts formats uct =
  filter_files fromtimestamp fs folder from_ts to_ts formats' uct.
Proof.
  intros Hset.
  destruct (DateTime.strptime from_ts) as [from_dt|] eqn:Hfrom;
    [|by unfold filter_files; rewrite Hfrom].
  destruct (DateTime.strptime to_ts) as [to_dt|] eqn:Hto;
    [|by unfold filter_files; rewrite Hfrom, Hto].
  destruct (normalize_formats formats) as [|x l] eqn:Hf,
           (normalize_formats formats') as [|x' l'] eqn:Hf'.
  - unfold filter_files. by rewrite Hfrom, Hto, Hf, Hf'.
  - assert (x' ∈ @nil string) as Hin by (apply Hset; by left).
    by apply elem_of_nil in Hin.
  - assert (x ∈ @nil string) as Hin by (apply Hset; by left).
    by apply elem_of_nil in Hin.
  - rewrite !(filter_files_returns _ _ _ _ _ _ _ from_dt to_dt)
      by (done || by rewrite ?Hf, ?Hf').
    f_equal. f_equal. rewrite Hf, Hf'. apply list_filter_iff. intros e.
    by rewrite (selected_same_formats _ _ _ (x :: l) (x' :: l')).
Qed.



End FilterAlgebra.

(** * Further properties: the walk *)

Module WalkFacts.
Import PyStr FS PathFacts FSFacts.

Lemma files_of_cons root dirs files triples :
  files_of ((root, dirs, files) :: triples) = (pair root <$> files) ++ files_of triples.
Proof. done. Qed.

Lemma files_of_app l1 l2 : files_of (l1 ++ l2) = files_of l1 ++ files_of l2.
Proof. unfold files_of. apply bind_app. Qed.

Lemma files_of_flat_map {A} (f : A → list (string * list string * list string)) l :
  files_of (flat_map f l) = l ≫= λ x, files_of (f x).
Proof.
  induction l as [|x l IH]; [done|]. simpl. by rewrite files_of_app, IH.
Qed.





(** Every directory a walk visits lies below its top. *)
Lemma walk_roots_below depth fs top k root dirs files :
  canon top = Some k →
  (root, dirs, files) ∈ walk depth fs top →
  ∃ names, canon root = Some (k ++ names).
Proof.
  revert top k. induction depth as [|depth IH]; intros top k Hk; simpl.
  - by intros ?%elem_of_nil.
  - destruct (scandir fs top) as [es|] eqn:Hscan; [|by intros ?%elem_of_nil].
    unfold scandir in Hscan. rewrite Hk in Hscan.
    destruct (node_at fs k) as [[]|]; simplify_eq.
    intros [[= -> -> ->]|Hin]%elem_of_cons.
    + exists []. by rewrite app_nil_r.
    + apply list_elem_of_In, in_flat_map in Hin as (d & Hd & Hin).
      apply list_elem_of_In in Hd, Hin.
      apply elem_of_names_where in Hd as (nd & [Hv _]%elem_of_listdir & _).
      destruct (IH (OsPath.join top d) (k ++ [d])) with (1 := canon_join _ _ _ Hv Hk)
        (2 := Hin) as [names Hnames].
      exists (d :: names). by rewrite <- (assoc_L (++)) in Hnames.
Qed.

(** Where the files of a walk are. *)
Lemma walk_files_below depth fs top k e :
  canon top = Some k →
  e ∈ files_of (walk depth fs top) →
  ∃ names data st,
    file_key e = Some (k ++ names ++ [e.2]) ∧ valid_name e.2 = true ∧
    entries fs !! (k ++ names ++ [e.2]) = Some (File data st).
Proof.
  intros Hk ([[root dirs] files] & Hin & Htriple)%list_elem_of_bind.
  apply list_elem_of_fmap in Hin as (name & -> & Hname).
  destruct (walk_roots_below _ _ _ _ _ _ _ Hk Htriple) as [names Hroot].
  destruct (walk_triple _ _ _ _ _ _ Htriple) as (k' & Hk' & _ & ->).
  rewrite Hroot in Hk'. injection Hk' as <-.
  apply elem_of_names_where in Hname as (nd & [Hv Hnd]%elem_of_listdir & Hfile).
  destruct nd as [std|data st]; [done|]. exists names, data, st. simpl.
  unfold file_key. simpl. rewrite (canon_join _ _ _ Hv Hroot).
  rewrite <- (assoc_L (++)) in Hnd. by rewrite <- (assoc_L (++)).
Qed.

(** *** No file is listed twice *)

Lemma listdir_names_NoDup fs k : NoDup (listdir fs k).*1.
Proof.
  unfold listdir. pose proof (NoDup_fst_map_to_list (entries fs)) as Hnodup.
  induction (map_to_list (entries fs)) as [|[key nd] l IH]; [constructor|].
  rewrite fmap_cons in Hnodup. apply NoDup_cons in Hnodup as [Hkey Hl]. simpl.
  destruct (child_of k key) as [n|] eqn:Hchild; simpl; [|by apply IH].
  apply child_of_Some in Hchild as [-> Hv].
  apply NoDup_cons. split; [|by apply IH].
  intros ([n' nd'] & Heq & ([key' nd''] & Hin & Hsome)%list_elem_of_omap)%list_elem_of_fmap.
  simpl in Heq. subst n'.
  destruct (child_of k key') as [n''|] eqn:Hchild'; simplify_eq/=.
  apply child_of_Some in Hchild' as [-> _].
  apply Hkey, list_elem_of_fmap. by exists (k ++ [n], nd').
Qed.

Lemma names_where_NoDup p fs k : NoDup (names_where p (listdir fs k)).
Proof.
  unfold names_where. eapply sublist_NoDup; [apply listdir_names_NoDup|].
  apply fmap_sublist, sublist_filter.
Qed.

Lemma snoc_cons_inj {A} (k : list A) x l y l' :
  k ++ x :: l = k ++ y :: l' → x = y.
Proof. intros Heq%(inj (app k)). by injection Heq. Qed.

Lemma fmap_of_bind {A B C} (f : B → C) (g : A → list B) (l : list A) :
  f <$> (l ≫= g) = l ≫= λ x, f <$> g x.
Proof.
  induction l as [|x l IH]; [done|]. by rewrite !bind_cons, fmap_app, IH.
Qed.

Lemma walk_file_keys_NoDup depth fs top k :
  canon top = Some k → NoDup (file_key <$> files_of (walk depth fs top)).
Proof.
  revert top k. induction depth as [|depth IH]; intros top k Hk; [constructor|].
  rewrite walk_S. unfold scandir. rewrite Hk.
  destruct (node_at fs k) as [[st|]|]; try constructor.
  rewrite files_of_cons, files_of_flat_map, fmap_app.
  set (dirs := names_where is_dir_node (listdir fs k)).
  set (files := names_where (λ n, negb (is_dir_node n)) (listdir fs k)).
  assert (∀ d, d ∈ dirs → canon (OsPath.join top d) = Some (k ++ [d])) as Hdirs.
  { intros d (nd & [Hv _]%elem_of_listdir & _)%elem_of_names_where.
    by apply canon_join. }
  assert (∀ d e, d ∈ dirs → e ∈ files_of (walk depth fs (OsPath.join top d)) →
            ∃ names, file_key e = Some (k ++ d :: names ++ [e.2])) as Hbelow.
  { intros d e Hd He.
    destruct (walk_files_below _ _ _ _ _ (Hdirs d Hd) He) as (names & _ & _ & Hkey & _).
    exists names. by rewrite <- (assoc_L (++)) in Hkey. }
  apply NoDup_app. split; [|split].
  - rewrite <- list_fmap_compose. apply NoDup_fmap_2_strong; [|apply names_where_NoDup].
    intros n n' Hn Hn'. unfold file_key. simpl.
    apply elem_of_names_where in Hn as (nd & [Hv _]%elem_of_listdir & _).
    apply elem_of_names_where in Hn' as (nd' & [Hv' _]%elem_of_listdir & _).
    rewrite !(canon_join _ _ k) by done. intros [= Heq].
    by apply (inj (app k)) in Heq as [= ->].
  - intros key ((root & n) & -> & (n' & [= -> ->] & Hn)%list_elem_of_fmap)%list_elem_of_fmap.
    intros (e & Heq & (d & He & Hd)%list_elem_of_bind)%list_elem_of_fmap.
    destruct (Hbelow d e Hd He) as [names Hkey].
    apply elem_of_names_where in Hn as (nd & [Hv _]%elem_of_listdir & _).
    unfold file_key in Heq at 1. simpl in Heq.
    rewrite (canon_join _ _ k) in Heq by done. rewrite Hkey in Heq.
    injection Heq as Heq. apply (inj (app k)) in Heq.
    injection Heq as _ Heq. by destruct names.
  - rewrite fmap_of_bind. apply NoDup_bind; [| |apply names_where_NoDup].
    + intros d d' key Hd Hd' (e & -> & He)%list_elem_of_fmap
        (e' & Heq & He')%list_elem_of_fmap.
      destruct (Hbelow d e Hd He) as [names Hkey].
      destruct (Hbelow d' e' Hd' He') as [names' Hkey'].
      rewrite Hkey, Hkey' in Heq. injection Heq as Heq.
      by apply snoc_cons_inj in Heq.
    + intros d Hd. simpl. by apply (IH _ (k ++ [d])), Hdirs.
Qed.

End WalkFacts.

Section WalkProperties.
Import PyStr FS PathFacts FSFacts WalkFacts.

Variable fromtimestamp : Z → datetime.

Lemma os_walk_no_folder fs folder : canon folder = None → os_walk fs folder = [].
Proof.
  intros Hk. unfold os_walk, max_depth. rewrite walk_S. unfold scandir.
  by rewrite Hk.
Qed.


(** X11.  Whatever the filter returns is a regular file that lies below
    the folder, whose base name has a requested extension and whose time is
    in the range. *)
Theorem X11_matches_are_files_below_the_folder
    fs folder from_ts to_ts formats (uct : bool) matching path :
  filter_files fromtimestamp fs folder from_ts to_ts formats uct = inr matching →
  path ∈ matching →
  ∃ k kp data st from_dt to_dt,
    canon folder = Some k ∧ canon path = Some kp ∧ k `prefix_of` kp ∧
    resolve fs path = Some (File data st) ∧
    extension (OsPath.basename path) ∈ normalize_formats formats ∧
    DateTime.strptime from_ts = Some from_dt ∧
    DateTime.strptime to_ts = Some to_dt ∧
    in_window from_dt to_dt
      (fromtimestamp (if uct then st_ctime st else st_mtime st)) = true.
Proof.
  intros Hrun Hpath.
  destruct (filter_files_inr_inv _ _ _ _ _ _ _ _ Hrun)
    as (from_dt & to_dt & Hfrom & Hto & Hne).
  rewrite (filter_files_returns _ _ _ _ _ _ _ _ _ Hfrom Hto Hne) in Hrun.
  injection Hrun as <-.
  apply list_elem_of_fmap in Hpath as ([root name] & -> & [Hsel Hin]%list_elem_of_filter).
  destruct (canon folder) as [k|] eqn:Hk;
    [|unfold walk_files in Hin; rewrite os_walk_no_folder in Hin by done;
      by apply elem_of_nil in Hin].
  destruct (walk_files_below _ _ _ _ (root, name) Hk Hin)
    as (names & data & st & Hkey & Hv & Hfile).
  unfold file_key in Hkey. simpl in *.
  apply selected_iff in Hsel as (Hext & t & Ht & Hwin).
  assert (resolve fs (OsPath.join root name) = Some (File data st)) as Hres.
  { unfold resolve. rewrite Hkey. simpl.
    by rewrite (assoc_L (++)), node_at_snoc, <- (assoc_L (++)). }
  rewrite (file_time_regular _ _ _ _ _ _ Hres) in Ht. injection Ht as <-.
  exists k, (k ++ names ++ [name]), data, st, from_dt, to_dt.
  unfold path_of. simpl. rewrite basename_join by done.
  repeat split; try done. by eexists.
Qed.

(** X12.  No file is matched twice: the paths the filter returns are
    pairwise distinct. *)
Theorem X12_no_file_is_matched_twice
    fs folder from_ts to_ts formats uct matching :
  filter_files fromtimestamp fs folder from_ts to_ts formats uct = inr matching →
  NoDup matching.
Proof.
  intros Hrun.
  destruct (filter_files_inr_inv _ _ _ _ _ _ _ _ Hrun)
    as (from_dt & to_dt & Hfrom & Hto & Hne).
  rewrite (filter_files_returns _ _ _ _ _ _ _ _ _ Hfrom Hto Hne) in Hrun.
  injection Hrun as <-.
  destruct (canon folder) as [k|] eqn:Hk;
    [|unfold walk_files; rewrite os_walk_no_folder by done; constructor].
  apply (NoDup_fmap_1 canon). rewrite <- list_fmap_compose.
  eapply sublist_NoDup;
    [apply (walk_file_keys_NoDup (max_depth fs) fs folder k Hk)|].
  apply fmap_sublist. apply sublist_filter.
Qed.

End WalkProperties.

(** * Further properties: where a request writes *)

Module ConfinementFacts.
Import PyStr PyStrFacts FS Shutil PathFacts EvolutionFacts MakedirsFacts.

Lemma join_not_empty root b : root ≠ "" → OsPath.join root b ≠ "".
Proof.
  intros Hroot. unfold OsPath.join.
  destruct (starts_with_char "/" b) eqn:Hb; simpl.
  - by destruct b.
  - apply is_empty_false in Hroot. rewrite Hroot.
    apply is_empty_false. destruct (ends_with_char "/" root);
      by rewrite is_empty_app, Hroot.
Qed.

(** Joining a directory and any piece without a slash. *)
Lemma canon_join_piece root b k :
  contains_char "/" b = false → canon root = Some k →
  canon (OsPath.join root b) = Some (push_component k b).
Proof.
  intros Hslash. unfold canon. destruct (is_empty root) eqn:Hroot; [done|].
  intros [= <-]. apply is_empty_false in Hroot.
  pose proof (join_not_empty root b Hroot) as Hjoin.
  apply is_empty_false in Hjoin. rewrite Hjoin. f_equal.
  unfold OsPath.join. rewrite (starts_with_slash_contains b) by done.
  apply is_empty_false in Hroot. rewrite Hroot. simpl.
  destruct (ends_with_char "/" root) eqn:Hend.
  - apply ends_with_char_inv in Hend as [r ->].
    rewrite app_assoc. change ("/" +:+ b) with (String "/" b).
    rewrite !split_app, (split_no_sep _ b) by done.
    change (split "/" "") with [""]. by rewrite !fold_left_app.
  - change ("/" +:+ b) with (String "/" b).
    by rewrite split_app, (split_no_sep _ b), fold_left_app.
Qed.

Lemma last_piece_Forall (P : string → Prop) l :
  l ≠ [] → Forall P l → P (last_piece l).
Proof.
  intros Hl HP. destruct (exists_last Hl) as (l' & x & ->).
  rewrite last_piece_snoc. by apply Forall_app in HP as [_ [? _]%Forall_cons].
Qed.

Lemma basename_no_slash p : contains_char "/" (OsPath.basename p) = false.
Proof.
  unfold OsPath.basename.
  apply (last_piece_Forall (λ s, contains_char "/" s = false));
    [apply split_nonempty|apply split_pieces_no_sep].
Qed.

Lemma removelast_prefix {A} (l : list A) : removelast l `prefix_of` l.
Proof.
  destruct l as [|x l _] using rev_ind; [done|].
  rewrite removelast_last. by eexists.
Qed.

Lemma push_component_cases k b :
  contains_char "/" b = false →
  (push_component k b `prefix_of` k ∧
   push_component (push_component k b) b `prefix_of` k) ∨
  (valid_name b = true ∧ push_component k b = k ++ [b]).
Proof.
  intros Hslash. unfold push_component.
  destruct (is_empty b) eqn:Hempty; simpl.
  { by left. }
  destruct (bool_decide (b = ".")) eqn:Hdot; simpl.
  { by left. }
  destruct (bool_decide (b = "..")) eqn:Hdots.
  { left. split; [apply removelast_prefix|].
    etrans; apply removelast_prefix. }
  right. split; [|done]. unfold valid_name. by rewrite Hempty, Hdot, Hdots, Hslash.
Qed.

(** Where a copy into an existing destination folder writes: under the
    base name of the source, in the folder or, when a directory of that name
    is in the way, inside that directory. *)
Lemma copy2_written_key dest kd src fs :
  canon dest = Some kd →
  (∀ p, p `prefix_of` kd → is_dir_at fs p = true) →
  (copy2 src (dest_path_of dest src) fs).2 = inr tt →
  ∃ names data st,
    names ≠ [] ∧ Forall (λ n, n = OsPath.basename src) names ∧
    canon (target fs src (dest_path_of dest src)) = Some (kd ++ names) ∧
    resolve fs src = Some (File data st) ∧
    (copy2 src (dest_path_of dest src) fs).1 =
      set_node (kd ++ names) (File data (copystat st (clock fs))) fs.
Proof.
  intros Hkd Hdirs Hok.
  destruct (copy2 src (dest_path_of dest src) fs) as [fs' r] eqn:Hcopy.
  simpl in Hok. subst r.
  apply copy2_inv in Hcopy as [[_ [e [=]]]|(_ & ks & kw & data & st & Hks & Hn
    & Hkw & Hne & Hnd & Hp & _ & _ & ->)].
  set (b := OsPath.basename src) in *.
  pose proof (basename_no_slash src) as Hslash. fold b in Hslash.
  assert (canon (dest_path_of dest src) = Some (push_component kd b)) as Hdp
    by (by apply canon_join_piece).
  assert (resolve fs src = Some (File data st)) as Hres
    by (unfold resolve; by rewrite Hks).
  pose proof Hkw as Htarget.
  unfold target in Hkw. rewrite isdir_is_dir_at, Hdp in Hkw. fold b in Hkw.
  destruct (push_component_cases kd b Hslash) as [[Hpre Hpre2]|[Hv Hpush]].
  - rewrite (Hdirs _ Hpre) in Hkw.
    rewrite (canon_join_piece _ b _ Hslash Hdp) in Hkw. injection Hkw as <-.
    by rewrite (Hdirs _ Hpre2) in Hnd.
  - rewrite Hpush in *. destruct (is_dir_at fs (kd ++ [b])).
    + rewrite (canon_join _ _ _ Hv Hdp) in Hkw. injection Hkw as <-.
      rewrite <- (assoc_L (++)) in *.
      exists [b; b], data, st. split; [done|]. split; [by repeat constructor|].
      by split.
    + rewrite Hdp in Hkw. injection Hkw as <-.
      exists [b], data, st. split; [done|]. split; [by repeat constructor|].
      by split.
Qed.

Lemma copy2_failure_keeps src dst fs e :
  (copy2 src dst fs).2 = inl e → (copy2 src dst fs).1 = fs.
Proof.
  destruct (copy2 src dst fs) as [fs' r] eqn:Hcopy. simpl. intros ->.
  by apply copy2_inv in Hcopy as [[-> _]|[[=] _]].
Qed.

(** One attempt of the loop leaves alone what is not the place it writes. *)
Lemma copy2_keeps_others dest kd src fs k :
  canon dest = Some kd →
  (∀ p, p `prefix_of` kd → is_dir_at fs p = true) →
  (∀ names, names ≠ [] → Forall (λ n, n = OsPath.basename src) names →
            k ≠ kd ++ names) →
  node_at (copy2 src (dest_path_of dest src) fs).1 k = node_at fs k.
Proof.
  intros Hkd Hdirs Hk.
  destruct (copy2 src (dest_path_of dest src) fs).2 as [e|[]] eqn:Hr.
  - by rewrite (copy2_failure_keeps _ _ _ _ Hr).
  - destruct (copy2_written_key dest kd src fs Hkd Hdirs Hr)
      as (names & data & st & Hne & Hall & _ & _ & ->).
    rewrite node_at_set_node by (by destruct kd, names).
    rewrite decide_False; [done|]. by apply Hk.
Qed.

Lemma prefix_dirs_kept fs fs' (kd : list string) :
  only_files_written fs fs' →
  (∀ p, p `prefix_of` kd → is_dir_at fs p = true) →
  (∀ p, p `prefix_of` kd → is_dir_at fs' p = true).
Proof. intros Hw Hdirs p Hp. rewrite (proj1 (Hw p)). by apply Hdirs. Qed.

(** The loop leaves alone what is not below the destination folder. *)
Lemma copy_final_state_keeps_outside dest kd ms fs k :
  canon dest = Some kd →
  (∀ p, p `prefix_of` kd → is_dir_at fs p = true) →
  ¬ kd `prefix_of` k →
  node_at (copy_final_state dest ms fs) k = node_at fs k.
Proof.
  intros Hkd. revert fs. induction ms as [|src rest IH]; intros fs Hdirs Hk; [done|].
  simpl. rewrite IH; [| |done].
  - apply (copy2_keeps_others dest kd); try done.
    intros names _ _ ->. apply Hk. by eexists.
  - eapply prefix_dirs_kept; [apply copy2_only_files_written|done].
Qed.

(** The loop leaves alone a file that no later source shares its base name
    with. *)
Lemma copy_final_state_keeps_name dest kd ms fs b names :
  canon dest = Some kd →
  (∀ p, p `prefix_of` kd → is_dir_at fs p = true) →
  names ≠ [] → Forall (λ n, n = b) names →
  (∀ s, s ∈ ms → OsPath.basename s ≠ b) →
  node_at (copy_final_state dest ms fs) (kd ++ names) = node_at fs (kd ++ names).
Proof.
  intros Hkd. revert fs.
  induction ms as [|src rest IH]; intros fs Hdirs Hne Hall Hms; [done|].
  simpl. rewrite IH; try done.
  - apply (copy2_keeps_others dest kd); try done.
    intros names' Hne' Hall' Heq%(inj (app kd)).
    destruct names as [|n names], names' as [|n' names']; try done.
    injection Heq as -> _.
    apply Forall_cons in Hall as [-> _]. apply Forall_cons in Hall' as [Hb _].
    apply (Hms src); [by left|done].
  - eapply prefix_dirs_kept; [apply copy2_only_files_written|done].
  - intros s Hs. apply Hms. by right.
Qed.

(** [mkdirs] leaves alone what is not on the path it makes. *)
Lemma mkdirs_keeps_others exist_ok name cur comps fs k :
  (∀ p, p ≠ [] → p `prefix_of` comps → k ≠ cur ++ p) →
  node_at (mkdirs exist_ok name cur comps fs).1 k = node_at fs k.
Proof.
  revert cur fs. induction comps as [|c rest IH]; intros cur fs Hk; [done|].
  assert (∀ p, p ≠ [] → p `prefix_of` rest → k ≠ (cur ++ [c]) ++ p) as Hrest.
  { intros p Hp [l Hl]. rewrite <- (assoc_L (++)).
    apply Hk; [done|]. exists l. simpl. by rewrite Hl. }
  simpl. destruct (node_at fs (cur ++ [c])) as [[st|data st]|] eqn:Hn.
  - destruct (is_empty_list rest && negb exist_ok); [done|]. by apply IH.
  - done.
  - rewrite IH by done. rewrite node_at_set_node by apply snoc_not_nil.
    rewrite decide_False; [done|]. apply Hk; [done|]. by exists rest.
Qed.

Lemma makedirs_keeps_others name exist_ok fs k :
  (∀ kd, canon name = Some kd → ¬ k `prefix_of` kd) →
  node_at (makedirs name exist_ok fs).1 k = node_at fs k.
Proof.
  intros Hk. unfold makedirs. destruct (canon name) as [[|c comps]|] eqn:Hkd.
  - by destruct exist_ok.
  - apply mkdirs_keeps_others. intros p _ Hp ->. by apply (Hk (c :: comps)).
  - done.
Qed.

Lemma only_dirs_added_nothing_removed fs fs' :
  only_dirs_added fs fs' → nothing_removed fs fs'.
Proof.
  intros Hadd k. split; [by apply only_dirs_added_keeps_dirs|].
  unfold is_file_at. destruct (Hadd k) as [->|[-> _]]; done.
Qed.

Lemma only_files_written_nothing_removed fs fs' :
  only_files_written fs fs' → nothing_removed fs fs'.
Proof. intros Hw k. destruct (Hw k) as [Hd Hf]. split; [by rewrite Hd|done]. Qed.

Lemma nothing_removed_trans fs1 fs2 fs3 :
  nothing_removed fs1 fs2 → nothing_removed fs2 fs3 → nothing_removed fs1 fs3.
Proof.
  intros H12 H23 k. destruct (H12 k), (H23 k). split; auto.
Qed.

End ConfinementFacts.

Section ConfinementProperties.
Import FS Shutil EvolutionFacts MakedirsFacts ConfinementFacts.

Variable fromtimestamp : Z → datetime.

(** What a request does to the file system. *)
Lemma request_effects req fs :
  let dest := OsPath.join (dest_folder_base req) (dest_folder_name req) in
  let fs' := (filter_and_copy fromtimestamp req fs).1 in
  nothing_removed fs fs' ∧
  ∀ k, (∀ kd, canon dest = Some kd → apart k kd) → node_at fs' k = node_at fs k.
Proof.
  intros dest fs'. subst fs'. rewrite filter_and_copy_run. fold dest.
  assert (nothing_removed fs fs) as Hrefl by (by intros k).
  destruct (isdir fs (source_folder req)); simpl; [|done].
  destruct (isdir fs (dest_folder_base req)); simpl; [|done].
  pose proof (makedirs_only_dirs_added dest true fs) as Hadd.
  assert (∀ k, (∀ kd, canon dest = Some kd → apart k kd) →
            node_at (makedirs dest true fs).1 k = node_at fs k) as Hmade.
  { intros k Hk. apply makedirs_keeps_others. intros kd Hkd. by apply Hk. }
  destruct (makedirs dest true fs) as [fs1 [e|[]]] eqn:Hmk; simpl in *.
  { split; [by apply only_dirs_added_nothing_removed|done]. }
  assert (∀ matching,
            nothing_removed fs (copy_final_state dest matching fs1) ∧
            ∀ k, (∀ kd, canon dest = Some kd → apart k kd) →
                 node_at (copy_final_state dest matching fs1) k = node_at fs k)
    as Hcopied.
  { intros matching. split.
    - eapply nothing_removed_trans; [by apply only_dirs_added_nothing_removed|].
      apply only_files_written_nothing_removed, copy_final_state_only_files_written.
    - intros k Hk. apply makedirs_ok in Hmk as (kd & Hkd & Hdirs).
      rewrite (copy_final_state_keeps_outside dest kd); [by apply Hmade|done|done|].
      by apply (Hk kd Hkd). }
  destruct (filter_files _ fs1 _ _ _ _ _) as [e|matching]; simpl.
  { split; [by apply only_dirs_added_nothing_removed|done]. }
  rewrite copy_loop_spec. simpl. apply Hcopied.
Qed.

(** X13.  A request removes nothing, and writes only at its destination:
    every file and directory that was there is still there, of the same
    kind, whatever the outcome; and, the destination being written without
    [..], what lies neither below the destination folder nor on the path to
    it is exactly as before, the matched source files among it. *)
Theorem X13_request_writes_only_at_the_destination req fs :
  let dest := OsPath.join (dest_folder_base req) (dest_folder_name req) in
  let fs' := (filter_and_copy fromtimestamp req fs).1 in
  nothing_removed fs fs' ∧
  (no_parent_refs dest →
   ∀ k, (∀ kd, canon dest = Some kd → apart k kd) → node_at fs' k = node_at fs k).
Proof.
  intros dest fs'. split; [exact (proj1 (request_effects req fs))|].
  intros _. exact (proj2 (request_effects req fs)).
Qed.



(** X15.  The last writer wins: when the copy loop comes to a matched file
    whose copy succeeds, and no file after it in the list has its base name,
    then the loop returns with the destination path of that file among the
    copied ones, and leaves at the destination the data of that file, with
    its modification time and its permission bits. *)
Theorem X15_last_copy_of_a_name_wins dest kd before src after fs :
  canon dest = Some kd →
  (∀ p, p `prefix_of` kd → is_dir_at fs p = true) →
  (∀ s, s ∈ after → OsPath.basename s ≠ OsPath.basename src) →
  let fs1 := (copy_loop dest before [] fs).1 in
  let run := copy_loop dest (before ++ src :: after) [] fs in
  (copy2 src (dest_path_of dest src) fs1).2 = inr tt →
  ∃ data st st' copied,
    resolve fs1 src = Some (File data st) ∧
    run.2 = inr copied ∧
    dest_path_of dest src ∈ copied ∧
    resolve run.1 (target fs1 src (dest_path_of dest src)) = Some (File data st') ∧
    st_mtime st' = st_mtime st ∧ st_mode st' = st_mode st.
Proof.
  intros Hkd Hdirs Hafter fs1 run. subst fs1 run. rewrite !copy_loop_spec.
  cbn [fst snd]. set (fs1 := copy_final_state dest before fs). intros Hok.
  assert (∀ p, p `prefix_of` kd → is_dir_at fs1 p = true) as Hdirs1.
  { eapply prefix_dirs_kept; [apply copy_final_state_only_files_written|done]. }
  destruct (copy2_written_key dest kd src fs1 Hkd Hdirs1 Hok)
    as (names & data & st & Hne & Hall & Htarget & Hres & Hstate).
  exists data, st, (copystat st (clock fs1)), (copied_in dest (before ++ src :: after) fs).
  split; [done|]. split; [done|]. split; [|split; [|done]].
  - rewrite copied_in_app, copied_in_cons. fold fs1. rewrite Hok.
    apply elem_of_app. right. by left.
  - rewrite copy_final_state_app. fold fs1. cbn [copy_final_state].
    unfold resolve. rewrite Htarget. cbn [mbind option_bind].
    rewrite (copy_final_state_keeps_name dest kd after _ (OsPath.basename src)); try done.
    + rewrite Hstate, node_at_set_node by (by destruct kd, names).
      by rewrite decide_True.
    + eapply prefix_dirs_kept; [apply copy2_only_files_written|done].
Qed.

End ConfinementProperties.

(** * The further properties at concrete inputs *)

Module MoreInstances.
Import Example1 Example2.

(** Goals over the few prefixes of a concrete path. *)
Ltac by_prefix_cases :=
  let p := fresh "p" in let l := fresh "l" in let Hl := fresh "Hl" in
  intros p [l Hl]; destruct p as [|? [|? [|? [|? p]]]];
  simpl in Hl; simplify_eq; vm_compute; reflexivity.

Ltac computed := vm_compute; reflexivity.
Ltac decided := apply (bool_decide_unpack _); vm_compute; exact I.

Lemma X1_witness :
  filter_and_copy utc req_no_source fs_deep =
    (fs_deep, inl (HTTPException 400
                     "Source folder does not exist or is not a directory: /nowhere")) ∧
  filter_and_copy utc req_no_base fs_deep =
    (fs_deep, inl (HTTPException 400
                     "Destination base folder does not exist: /nowhere")).
Proof.
  split.
  - apply (proj1 (X1_folder_checks_come_first utc req_no_source fs_deep)). computed.
  - apply (proj2 (X1_folder_checks_come_first utc req_no_base fs_deep)); computed.
Defined.

Lemma X2_witness :
  filter_and_copy utc req_taken fs_deep =
    (fs_deep, inl (OSError FileExistsError "/out/taken")).
Proof.
  apply (X2_destination_in_the_way_is_not_a_400 utc req_taken fs_deep
           ["out"; "taken"] "in the way" (mk_stat rw_r__r__ 0 0)).
  - computed.
  - computed.
  - computed.
  - intros p [l Hl] Hne.
    destruct p as [|a [|b [|c p]]]; simpl in Hl; simplify_eq;
      solve [computed | by destruct l].
  - computed.
Defined.


Lemma X4_witness :
  destination_folder
    (mk_response "success" 1 "/data/y2024" ["/data/y2024/REPORT.TXT"] 0)
    = dest_folder_name req_absolute ∧
  FS.isdir (filter_and_copy utc req_absolute fs_deep).1 (dest_folder_name req_absolute)
    = true ∧
  ∀ p, p ∈ copied_files
             (mk_response "success" 1 "/data/y2024" ["/data/y2024/REPORT.TXT"] 0) →
       ∃ src, p = OsPath.join (dest_folder_name req_absolute) (OsPath.basename src).
Proof.
  apply (X4_absolute_destination_name_drops_the_base utc req_absolute fs_deep).
  - computed.
  - computed.
Defined.

Lemma X5_witness :
  filter_files utc fs_deep "/nowhere" "2024-01-01 00:00:00" "2024-01-01 23:59:59"
               "txt" false = inr [].
Proof.
  apply (X5_filter_of_a_missing_folder_is_empty utc fs_deep "/nowhere"
           "2024-01-01 00:00:00" "2024-01-01 23:59:59" "txt" false midnight end_of_day).
  - computed.
  - computed.
  - vm_compute. discriminate.
  - computed.
Defined.

Lemma X6_witness :
  extension ("backup.tar" +:+ String "." "gz") = PyStr.lower "gz" ∧
  extension (PyStr.upper ("backup.tar" +:+ String "." "gz"))
    = extension ("backup.tar" +:+ String "." "gz") ∧
  extension (PyStr.lower ("backup.tar" +:+ String "." "gz"))
    = extension ("backup.tar" +:+ String "." "gz").
Proof.
  destruct (X6_extension_is_after_the_last_dot "backup.tar" "gz") as [Hext Hcase].
  - computed.
  - split; [exact Hext|]. apply Hcase. computed.
Defined.

Lemma X7_witness :
  filter_files utc fs0 "/data" "2024-01-01 00:00:00" "2024-01-01 23:59:59"
               "txt,log" false =
  filter_files utc fs0 "/data" "2024-01-01 00:00:00" "2024-01-01 23:59:59"
               "log, .TXT,,txt" false.
Proof.
  apply (X7_formats_count_as_a_set utc fs0 "/data" "2024-01-01 00:00:00"
           "2024-01-01 23:59:59" "txt,log" "log, .TXT,,txt" false).
  intros x.
  change (normalize_formats "txt,log") with ["txt"; "log"].
  change (normalize_formats "log, .TXT,,txt") with ["log"; "txt"; "txt"].
  rewrite !elem_of_cons, !elem_of_nil. tauto.
Defined.




Lemma X11_witness :
  ∃ k kp data st from_dt to_dt,
    FS.canon "/data" = Some k ∧ FS.canon "/data/y2024/jan/REPORT.TXT" = Some kp ∧
    k `prefix_of` kp ∧
    FS.resolve fs_deep "/data/y2024/jan/REPORT.TXT" = Some (File data st) ∧
    extension (OsPath.basename "/data/y2024/jan/REPORT.TXT") ∈ normalize_formats "txt" ∧
    DateTime.strptime "2024-01-01 00:00:00" = Some from_dt ∧
    DateTime.strptime "2024-01-01 23:59:59" = Some to_dt ∧
    in_window from_dt to_dt (utc (st_mtime st)) = true.
Proof.
  apply (X11_matches_are_files_below_the_folder utc fs_deep "/data"
           "2024-01-01 00:00:00" "2024-01-01 23:59:59" "txt" false
           ["/data/y2024/jan/REPORT.TXT"]).
  - computed.
  - by left.
Defined.

Lemma X12_witness : NoDup ["/data/a.txt"; "/data/sub/txt"; "/data/sub/a.txt"].
Proof.
  apply (X12_no_file_is_matched_twice utc fs0 "/data" "2024-01-01 00:00:00"
           "2024-01-01 23:59:59" "txt" false).
  computed.
Defined.

(** The source [/data/a.txt] after the example request. *)
Lemma X13_witness :
  nothing_removed fs0 (filter_and_copy utc req0 fs0).1 ∧
  FS.node_at (filter_and_copy utc req0 fs0).1 ["data"; "a.txt"]
    = FS.node_at fs0 ["data"; "a.txt"].
Proof.
  destruct (X13_request_writes_only_at_the_destination utc req0 fs0) as [Hkept Hapart].
  split; [exact Hkept|]. apply Hapart.
  - unfold no_parent_refs. decided.
  - intros kd Hkd. vm_compute in Hkd. injection Hkd as <-.
    split; intros [l Hl]; discriminate Hl.
Defined.


(** [/data/a.txt], then [/data/sub/a.txt], then [/data/b.log]: the second
    is the last of its name. *)
Lemma X15_witness :
  ∃ data st st' copied,
    FS.resolve (copy_loop "/out/run1" ["/data/a.txt"] [] fs_made).1 "/data/sub/a.txt"
      = Some (File data st) ∧
    (copy_loop "/out/run1" (["/data/a.txt"] ++ "/data/sub/a.txt" :: ["/data/b.log"])
               [] fs_made).2 = inr copied ∧
    dest_path_of "/out/run1" "/data/sub/a.txt" ∈ copied ∧
    FS.resolve
      (copy_loop "/out/run1" (["/data/a.txt"] ++ "/data/sub/a.txt" :: ["/data/b.log"])
                 [] fs_made).1
      (target (copy_loop "/out/run1" ["/data/a.txt"] [] fs_made).1
              "/data/sub/a.txt" (dest_path_of "/out/run1" "/data/sub/a.txt"))
      = Some (File data st') ∧
    st_mtime st' = st_mtime st ∧ st_mode st' = st_mode st.
Proof.
  apply (X15_last_copy_of_a_name_wins "/out/run1" ["out"; "run1"]
           ["/data/a.txt"] "/data/sub/a.txt" ["/data/b.log"] fs_made).
  - computed.
  - by_prefix_cases.
  - intros s ->%list_elem_of_singleton. vm_compute. discriminate.
  - computed.
Defined.

End MoreInstances.
